(** * Weather data visualizer: the cleaning and aggregation pipeline

    A shallow embedding of [weather_analysis.py]: the cleaner
    ([clean_weather_data]), the season mapping ([month_to_season],
    [add_season_column]), the month and season aggregation
    ([group_by_month_and_season]), the CSV export ([export_cleaned_data])
    and the "day with highest rainfall" of [write_summary_report].

    Conventions of the embedding.
    - A pandas DataFrame is a header (the column names, in order) and a list
      of rows; a row is a finite map from column names to cells.  A key that
      a row does not hold reads as a missing cell.
    - Cells are what [read_csv] and the program itself produce: missing
      (NaN, NaT and None are one constructor), numbers, strings, timestamps.
    - Numbers are exact rationals kept in lowest terms; pandas computes in
      binary floating point: its rounding is not modelled, and neither are
      its infinities.
    - A Python exception is [None] in the option monad.
    - The three pandas conversions that depend on the contents of text
      ([to_datetime], [to_numeric] on strings, [to_numeric] on timestamps)
      are parameters of the development; a concrete ISO-8601 instance is
      given with the definitions and used on the concrete tables. *)

From Stdlib Require Import QArith Qreduction Ascii String.
From stdpp Require Import gmap strings list fin_maps sorting.

Set Warnings "-clear-no-such-hyp".
Set Default Proof Using "Type".
Local Open Scope Z_scope.

(** ** Cells and dates *)

Record date := mkDate { year : Z; month : Z; day : Z }.

Inductive cell :=
  | NaN
  | Num (q : Q)
  | Str (s : string)
  | Stamp (d : date).

Definition isna (c : cell) : bool :=
  match c with NaN => true | _ => false end.

Definition notna (c : cell) : bool := negb (isna c).

Definition is_leap (y : Z) : bool :=
  ((y mod 4 =? 0) && negb (y mod 100 =? 0)) || (y mod 400 =? 0).

Definition days_in_month (y m : Z) : Z :=
  if m =? 2 then (if is_leap y then 29 else 28)
  else if (m =? 4) || (m =? 6) || (m =? 9) || (m =? 11) then 30
  else 31.

Definition valid_dateb (d : date) : bool :=
  (1 <=? month d) && (month d <=? 12) &&
  (1 <=? day d) && (day d <=? days_in_month (year d) (month d)).

Definition valid_date (d : date) : Prop := valid_dateb d = true.

(** A cell of a datetime column that holds a calendar date. *)
Definition valid_stamp (c : cell) : Prop :=
  ∃ d, c = Stamp d ∧ valid_date d.

(** A cell of a float column: a number or NaN. *)
Definition is_float (c : cell) : Prop :=
  match c with NaN | Num _ => True | _ => False end.

Definition is_num (c : cell) : Prop :=
  match c with Num _ => True | _ => False end.

(** ** Data frames *)

Record DataFrame := mkFrame {
  columns : list string;
  rows : list (gmap string cell)
}.

Definition cell_at (r : gmap string cell) (c : string) : cell :=
  default NaN (r !! c).

(** [c in df.columns] *)
Definition has_col (df : DataFrame) (c : string) : bool :=
  bool_decide (c ∈ columns df).

(** The values of [df[c]], row by row. *)
Definition column (df : DataFrame) (c : string) : list cell :=
  (λ r, cell_at r c) <$> rows df.

(** [df[c]]: KeyError when the frame has no such column. *)
Definition getitem (df : DataFrame) (c : string) : option (list cell) :=
  if has_col df c then Some (column df c) else None.

(** [df[c] = s]: overwrites the column in place, or appends a new one. *)
Definition setitem (df : DataFrame) (c : string) (s : list cell) : DataFrame :=
  mkFrame (if has_col df c then columns df else columns df ++ [c])
          (zip_with (λ r v, <[c:=v]> r) (rows df) s).

(** A row all of whose columns are missing. *)
Definition row_all_na (cs : list string) (r : gmap string cell) : Prop :=
  Forall (λ c, isna (cell_at r c) = true) cs.

#[global] Instance row_all_na_dec cs r : Decision (row_all_na cs r).
Proof. unfold row_all_na. apply _. Defined.

(** [df.dropna(how="all")] *)
Definition dropna_all (df : DataFrame) : DataFrame :=
  mkFrame (columns df) (filter (λ r, ¬ row_all_na (columns df) r) (rows df)).

(** [df.dropna(subset=[c])]: KeyError when the frame has no such column. *)
Definition dropna_subset (df : DataFrame) (c : string) : option DataFrame :=
  if has_col df c
  then Some (mkFrame (columns df)
                     (filter (λ r, notna (cell_at r c) = true) (rows df)))
  else None.

Definition row_restrict (cs : list string) (r : gmap string cell)
  : gmap string cell :=
  filter (λ kv, kv.1 ∈ cs) r.

(** [df[cs]] for a list of names: KeyError when one of them is absent. *)
Definition select (df : DataFrame) (cs : list string) : option DataFrame :=
  if forallb (has_col df) cs
  then Some (mkFrame cs (row_restrict cs <$> rows df))
  else None.

(** ** Series operations *)

Definition numeric_values (s : list cell) : list Q :=
  omap (λ c, match c with Num q => Some q | _ => None end) s.

Definition Qsum (l : list Q) : Q := foldr Qplus (0#1)%Q l.

(** The arithmetic mean of a non-empty list, in lowest terms. *)
Definition arith_mean (vs : list Q) : Q :=
  Qred (Qsum vs / inject_Z (Z.of_nat (length vs))).

(** [s.mean()] with the default [skipna=True]: NaN when nothing is valid.
    (In floating point the mean is NaN as well when the column holds both
    infinities; the numbers of the model are finite.) *)
Definition series_mean (s : list cell) : cell :=
  match numeric_values s with
  | [] => NaN
  | vs => Num (arith_mean vs)
  end.

(** [s.sum()] with the default [skipna=True]: 0 when nothing is valid.
    (The sum is exact here; pandas adds in floating point.) *)
Definition series_sum (s : list cell) : cell :=
  Num (Qred (Qsum (numeric_values s))).

(** [s.fillna(v)]: filling with NaN leaves the series as it is. *)
Definition fillna (s : list cell) (v : cell) : list cell :=
  (λ c, if isna c then v else c) <$> s.

Definition cols : list string :=
  ["Date"; "Temperature"; "Rainfall"; "Humidity"]%string.

Definition measurement_cols : list string :=
  ["Temperature"; "Rainfall"; "Humidity"]%string.

(** ** The cleaner *)

Section Cleaner.

(** [pd.to_datetime(s, errors="coerce")] on a whole column (pandas may
    infer one format for the column, so it is not taken cell by cell). *)
Variable to_datetime : list cell → list cell.
(** What [pd.to_numeric(_, errors="coerce")] makes of a string and of a
    timestamp; [None] is a failed coercion. *)
Variable number_of_string : string → option Q.
Variable number_of_stamp : date → option Q.

Definition to_numeric1 (c : cell) : cell :=
  match c with
  | NaN => NaN
  | Num q => Num q
  | Str s => from_option Num NaN (number_of_string s)
  | Stamp d => from_option Num NaN (number_of_stamp d)
  end.

(** [pd.to_numeric(s, errors="coerce")] *)
Definition to_numeric (s : list cell) : list cell := to_numeric1 <$> s.

(** One turn of the loop at lines 68-72. *)
Definition impute_column (df : DataFrame) (col : string) : DataFrame :=
  if has_col df col then
    let df1 := setitem df col (to_numeric (column df col)) in
    let mean_value := series_mean (column df1 col) in
    setitem df1 col (fillna (column df1 col) mean_value)
  else df.

Definition clean_weather_data (df : DataFrame) : option DataFrame :=
  let df := dropna_all df in
  dates ← getitem df "Date";
  let df := setitem df "Date" (to_datetime dates) in
  df ← dropna_subset df "Date";
  df ← select df (filter (λ c, has_col df c = true) cols);
  Some (foldl impute_column df measurement_cols).

(** *** The cleaner as the specification describes it, stage by stage

    These definitions follow the words of the specification (section 4.1)
    and work row by row; they are compared with [clean_weather_data]
    below. *)

(** "Rows entirely empty are dropped first." *)
Definition drop_empty_rows (cs : list string) (rs : list (gmap string cell))
  : list (gmap string cell) :=
  filter (λ r, Exists (λ c, notna (cell_at r c) = true) cs) rs.

(** "The timestamp column is parsed; rows where parsing fails are
    dropped." *)
Definition parse_dates_and_drop (rs : list (gmap string cell))
  : list (gmap string cell) :=
  omap (λ rd : gmap string cell * cell,
          if isna rd.2 then None else Some (<["Date"%string := rd.2]> rd.1))
       (zip rs (to_datetime ((λ r, cell_at r "Date") <$> rs))).

(** "Only the four known columns are retained if present." *)
Definition known_columns (cs : list string) : list string :=
  filter (λ c, c ∈ cs) cols.

Definition keep_known_columns (cs : list string)
    (rs : list (gmap string cell)) : list (gmap string cell) :=
  row_restrict (known_columns cs) <$> rs.

(** The rows that reach the numeric stage. *)
Definition retained_rows (df : DataFrame) : list (gmap string cell) :=
  keep_known_columns (columns df)
    (parse_dates_and_drop (drop_empty_rows (columns df) (rows df))).

(** The table that reaches the numeric stage. *)
Definition retained (df : DataFrame) : DataFrame :=
  mkFrame (known_columns (columns df)) (retained_rows df).

(** The coerced values of one column. *)
Definition coerced (col : string) (rs : list (gmap string cell))
  : list cell :=
  (λ r, to_numeric1 (cell_at r col)) <$> rs.

(** The valid (non-missing) values of a column after coercion, over the
    retained rows. *)
Definition valid_values (df : DataFrame) (col : string) : list Q :=
  numeric_values (coerced col (retained_rows df)).

Definition fill_cell (m c : cell) : cell := if isna c then m else c.

(** "Each numeric column is coerced to a number; ... every missing value
    in a column is replaced by that column's arithmetic mean". *)
Definition coerce_and_impute (cs : list string) (col : string)
    (rs : list (gmap string cell)) : list (gmap string cell) :=
  if bool_decide (col ∈ cs) then
    let m := series_mean (coerced col rs) in
    (λ r, <[col := fill_cell m (to_numeric1 (cell_at r col))]> r) <$> rs
  else rs.

(** The shape of a row of the cleaned table: no key outside the header,
    a calendar date under Date, and a float under each measurement column
    already treated. *)
Definition row_ok (cs treated : list string) (r : gmap string cell) : Prop :=
  (∀ k, is_Some (r !! k) → k ∈ cs) ∧
  (∃ d, r !! "Date"%string = Some (Stamp d) ∧ valid_date d) ∧
  ∀ col, col ∈ treated → col ∈ cs → ∃ c, r !! col = Some c ∧ is_float c.

Definition cleaner_by_stages (df : DataFrame) : option DataFrame :=
  if bool_decide ("Date"%string ∈ columns df) then
    let cs := known_columns (columns df) in
    Some (mkFrame cs
            (coerce_and_impute cs "Humidity"
              (coerce_and_impute cs "Rainfall"
                (coerce_and_impute cs "Temperature" (retained_rows df)))))
  else None.

End Cleaner.

(** ** Season mapping *)

(** [month == n] for an integer literal [n]; only a number can be equal. *)
Definition cell_eq_int (c : cell) (n : Z) : bool :=
  match c with Num q => Qeq_bool q (inject_Z n) | _ => false end.

(** [month in [a, b, c]] *)
Definition month_in (month : cell) (l : list Z) : bool :=
  existsb (cell_eq_int month) l.

Definition month_to_season (month : cell) : string :=
  if month_in month [12; 1; 2] then "Winter"
  else if month_in month [3; 4; 5] then "Spring"
  else if month_in month [6; 7; 8] then "Summer"
  else "Autumn".

(** The month number as the cell [.dt.month] puts in the Month column. *)
Definition month_cell (m : Z) : cell := Num (inject_Z m).

(** [s.dt.month]: the accessor exists on datetime columns only. *)
Definition dt_month (s : list cell) : option (list cell) :=
  mapM (λ c, match c with
             | Stamp d => Some (month_cell (month d))
             | NaN => Some NaN
             | _ => None
             end) s.

(** [s.apply(f)] for a function giving text. *)
Definition apply_str (f : cell → string) (s : list cell) : list cell :=
  (λ c, Str (f c)) <$> s.

(** ** Grouping and aggregation *)

Definition cell_leb (a b : cell) : bool :=
  match a, b with
  | NaN, _ => true
  | Num _, NaN => false
  | Num p, Num q => Qle_bool p q
  | Num _, _ => true
  | Str _, (NaN | Num _) => false
  | Str s, Str t => String.leb s t
  | Str _, Stamp _ => true
  | Stamp d, Stamp e =>
      (year d <? year e) || ((year d =? year e) &&
        ((month d <? month e) || ((month d =? month e) && (day d <=? day e))))
  | Stamp _, _ => false
  end.

Definition cell_le (a b : cell) : Prop := cell_leb a b = true.

#[global] Instance cell_le_dec a b : Decision (cell_le a b).
Proof. unfold cell_le. apply _. Defined.
#[global] Instance Q_eq_dec : EqDecision Q.
Proof. solve_decision. Defined.
#[global] Instance date_eq_dec : EqDecision date.
Proof. solve_decision. Defined.
#[global] Instance cell_eq_dec : EqDecision cell.
Proof. solve_decision. Defined.

(** The group labels of [df.groupby(key)]: the distinct non-missing values
    of the key column, sorted. *)
Definition group_keys (df : DataFrame) (key : string) : list cell :=
  merge_sort cell_le
    (remove_dups (filter (λ c, notna c = true) (column df key))).

(** The rows of one group. *)
Definition group_rows (df : DataFrame) (key : string) (k : cell)
  : list (gmap string cell) :=
  filter (λ r, cell_at r key = k) (rows df).

Definition float_column (df : DataFrame) (c : string) : Prop :=
  Forall is_float (column df c).

#[global] Instance is_float_dec c : Decision (is_float c).
Proof. destruct c; simpl; apply _. Defined.

(** The aggregation dictionary passed to [.agg] at lines 234-238 and
    241-245, in its order. *)
Definition agg_spec : list (string * (list cell → cell)) :=
  [("Temperature"%string, series_mean);
   ("Rainfall"%string, series_sum);
   ("Humidity"%string, series_mean)].

(** One line of the aggregated table: each column of the dictionary reduced
    over the rows of the group. *)
Definition aggregate (spec : list (string * (list cell → cell)))
    (rs : list (gmap string cell)) : gmap string cell :=
  list_to_map ((λ cf, (cf.1, cf.2 ((λ r, cell_at r cf.1) <$> rs))) <$> spec).

(** [df.groupby(key).agg(spec)]: the labels with their aggregated lines.
    KeyError when the key or an aggregated column is absent.  Only float
    columns are aggregated in the model; any other column gives [None]. *)
Definition groupby_agg (df : DataFrame) (key : string)
    (spec : list (string * (list cell → cell)))
  : option (list (cell * gmap string cell)) :=
  if has_col df key
     && forallb (λ cf, has_col df cf.1 && bool_decide (float_column df cf.1)) spec
  then Some ((λ k, (k, aggregate spec (group_rows df key k)))
               <$> group_keys df key)
  else None.

(** [stats.loc[k]] *)
Definition stats_loc (st : list (cell * gmap string cell)) (k : cell)
  : option (gmap string cell) :=
  (λ ie, ie.2.2) <$> list_find (λ e, e.1 = k) st.

(** ** The store of frames and files *)

Record csv := mkCsv { header : list string; records : list (list cell) }.

Record world := mkWorld {
  frames : gmap nat DataFrame;
  files : gmap string csv
}.

Definition M (A : Type) : Type := world → option (A * world).

Definition ret {A} (a : A) : M A := λ w, Some (a, w).

Definition bind {A B} (m : M A) (f : A → M B) : M B :=
  λ w, match m w with Some (a, w') => f a w' | None => None end.

Declare Scope world_scope.
Delimit Scope world_scope with world.
Notation "x <- m ;; k" := (bind m (λ x, k))
  (at level 100, m at next level, right associativity) : world_scope.
Notation "m ;;; k" := (bind m (λ _, k))
  (at level 100, right associativity) : world_scope.

(** A raised exception, or a returned value. *)
Definition lift {A} (o : option A) : M A := λ w, (λ a, (a, w)) <$> o.

Definition read_frame (r : nat) : M DataFrame :=
  λ w, (λ df, (df, w)) <$> frames w !! r.

Definition write_frame (r : nat) (df : DataFrame) : M unit :=
  λ w, Some (tt, mkWorld (<[r:=df]> (frames w)) (files w)).

Definition alloc_frame (df : DataFrame) : M nat :=
  λ w, let r := fresh (dom (frames w)) in
       Some (r, mkWorld (<[r:=df]> (frames w)) (files w)).

Definition write_file (path : string) (c : csv) : M unit :=
  λ w, Some (tt, mkWorld (frames w) (<[path:=c]> (files w))).

(** [df.copy()] *)
Definition copy (r : nat) : M nat :=
  (df <- read_frame r ;; alloc_frame df)%world.

(** [df[c] = s] on the frame object [r] itself. *)
Definition setitem_inplace (r : nat) (c : string) (s : list cell) : M unit :=
  (df <- read_frame r ;; write_frame r (setitem df c s))%world.

Definition getitem_ref (r : nat) (c : string) : M (list cell) :=
  (df <- read_frame r ;; lift (getitem df c))%world.

Definition add_season_column (r : nat) : M nat :=
  (dates <- getitem_ref r "Date" ;;
   months <- lift (dt_month dates) ;;
   setitem_inplace r "Month" months ;;;
   months <- getitem_ref r "Month" ;;
   setitem_inplace r "Season" (apply_str month_to_season months) ;;;
   ret r)%world.

Definition group_by_month_and_season (r : nat)
  : M (list (cell * gmap string cell) * list (cell * gmap string cell)) :=
  (c <- copy r ;;
   r' <- add_season_column c ;;
   df <- read_frame r' ;;
   monthly_stats <- lift (groupby_agg df "Month" agg_spec) ;;
   season_stats <- lift (groupby_agg df "Season" agg_spec) ;;
   ret (monthly_stats, season_stats))%world.

(** [df.to_csv(path, index=False)]: the header, then one record per row. *)
Definition to_csv (df : DataFrame) : csv :=
  mkCsv (columns df) ((λ r, (λ c, cell_at r c) <$> columns df) <$> rows df).

Definition cleaned_path : string := "output/cleaned_weather_data.csv".

Definition export_cleaned_data (r : nat) : M unit :=
  (df <- read_frame r ;; write_file cleaned_path (to_csv df))%world.

(** ** The day with highest rainfall *)

(** [s.idxmax()] on a float column with a default (positional) index: the
    position of the first greatest number, NaN skipped; ValueError when
    there is no number.  A column that holds text or a timestamp is not a
    float column: the comparison raises TypeError. *)
Fixpoint idxmax_from (i : nat) (best : option (nat * Q)) (s : list cell)
  : option nat :=
  match s with
  | [] => fst <$> best
  | Num q :: s =>
      match best with
      | Some (j, b) =>
          if Qle_bool q b then idxmax_from (S i) best s
          else idxmax_from (S i) (Some (i, q)) s
      | None => idxmax_from (S i) (Some (i, q)) s
      end
  | NaN :: s => idxmax_from (S i) best s
  | (Str _ | Stamp _) :: _ => None
  end.

Definition idxmax (s : list cell) : option nat := idxmax_from 0 None s.

(** [df.loc[df["Rainfall"].idxmax(), "Date"]] at line 280 and the [.date()]
    taken of it at line 290, which only a timestamp has. *)
Definition max_rain_day (df : DataFrame) : option cell :=
  rain ← getitem df "Rainfall";
  i ← idxmax rain;
  dates ← getitem df "Date";
  day ← dates !! i;
  match day with
  | Stamp d => Some (Stamp d)
  | _ => None
  end.

(** ** A concrete instance of the conversions: ISO-8601 dates, decimal
    integers *)

Module Iso.

Definition digit (a : ascii) : option Z :=
  let n := Z.of_nat (nat_of_ascii a) in
  if (48 <=? n) && (n <=? 57) then Some (n - 48) else None.

Fixpoint digits (acc : Z) (l : list ascii) : option Z :=
  match l with
  | [] => Some acc
  | a :: l => d ← digit a; digits (10 * acc + d) l
  end.

Definition dash : ascii := "-"%char.

(** [YYYY-MM-DD], accepted when it names a calendar date. *)
Definition parse_date (s : string) : option date :=
  match list_ascii_of_string s with
  | [y1; y2; y3; y4; s1; m1; m2; s2; d1; d2] =>
      if bool_decide (s1 = dash ∧ s2 = dash) then
        y ← digits 0 [y1; y2; y3; y4];
        m ← digits 0 [m1; m2];
        d ← digits 0 [d1; d2];
        let dt := mkDate y m d in
        if valid_dateb dt then Some dt else None
      else None
  | _ => None
  end.

Definition to_datetime1 (c : cell) : cell :=
  match c with
  | Str s => from_option Stamp NaN (parse_date s)
  | Stamp d => if valid_dateb d then Stamp d else NaN
  | _ => NaN
  end.

Definition to_datetime (s : list cell) : list cell := to_datetime1 <$> s.

(** A non-empty run of decimal digits. *)
Definition number_of_string (s : string) : option Q :=
  match list_ascii_of_string s with
  | [] => None
  | l => inject_Z <$> digits 0 l
  end.

Definition number_of_stamp (d : date) : option Q := None.

Definition clean : DataFrame → option DataFrame :=
  clean_weather_data to_datetime number_of_string number_of_stamp.

End Iso.

(** ** The scenario of the specification *)

Definition weather_row (d t r h : cell) : gmap string cell :=
  {[ "Date"%string := d; "Temperature"%string := t;
     "Rainfall"%string := r; "Humidity"%string := h ]}.

Definition scenario : DataFrame :=
  mkFrame cols
    [ weather_row (Str "2023-01-05") (Num 10) (Num 0) (Num 50);
      weather_row (Str "2023-01-06") (Str "bad") (Num 5) (Num 60);
      weather_row (Str "2023-02-01") (Num 20) (Num 10) (Num 70) ].

Definition one_frame (df : DataFrame) : world := mkWorld {[ 0%nat := df ]} ∅.

(** ** The tie for the highest rainfall, as the specification puts it *)

Definition date_leb (d e : date) : bool := cell_leb (Stamp d) (Stamp e).

(** Row [i] holds the greatest rainfall [q] of the table. *)
Definition max_rain_at (df : DataFrame) (i : nat) (q : Q) : Prop :=
  column df "Rainfall" !! i = Some (Num q) ∧
  ∀ j q', column df "Rainfall" !! j = Some (Num q') → (q' <= q)%Q.

(** "picks the earliest date among ties": no row tied for the highest
    rainfall has a date before the reported one. *)
Definition reports_earliest_tie (df : DataFrame) : Prop :=
  ∀ day, max_rain_day df = Some (Stamp day) →
    ∀ i q d, max_rain_at df i q →
             column df "Date" !! i = Some (Stamp d) →
             date_leb day d = true.

(** Two days with the same rainfall, the later one first in the file. *)
Definition ties : DataFrame :=
  mkFrame cols
    [ weather_row (Str "2023-02-01") (Num 20) (Num 5) (Num 70);
      weather_row (Str "2023-01-01") (Num 10) (Num 5) (Num 50) ].

Definition ties_cleaned : DataFrame :=
  mkFrame cols
    [ weather_row (Stamp (mkDate 2023 2 1)) (Num 20) (Num 5) (Num 70);
      weather_row (Stamp (mkDate 2023 1 1)) (Num 10) (Num 5) (Num 50) ].

(** ** The buckets of the aggregation, as the specification puts it *)

(** The month number of a row, from its date. *)
Definition row_month (r : gmap string cell) : cell :=
  match cell_at r "Date" with
  | Stamp d => month_cell (month d)
  | _ => NaN
  end.

(** "rows bucketed by month number (1-12) regardless of year" *)
Definition rows_of_month (df : DataFrame) (m : Z) : list (gmap string cell) :=
  filter (λ r, row_month r = month_cell m) (rows df).

(** "each row assigned a season by fixed month→season mapping" *)
Definition rows_of_season (df : DataFrame) (s : string)
  : list (gmap string cell) :=
  filter (λ r, month_to_season (row_month r) = s) (rows df).

(** "mean(temperature), sum(rainfall), mean(humidity)" of a bucket. *)
Definition bucket_summary (rs : list (gmap string cell))
    (line : gmap string cell) : Prop :=
  cell_at line "Temperature" = series_mean ((λ r, cell_at r "Temperature") <$> rs) ∧
  cell_at line "Rainfall" = series_sum ((λ r, cell_at r "Rainfall") <$> rs) ∧
  cell_at line "Humidity" = series_mean ((λ r, cell_at r "Humidity") <$> rs).

(** A row with the two derived columns. *)
Definition with_season (r : gmap string cell) : gmap string cell :=
  <["Season"%string := Str (month_to_season (row_month r))]>
    (<["Month"%string := row_month r]> r).

(** The copy that [add_season_column] leaves behind. *)
Definition seasoned (df : DataFrame) : DataFrame :=
  let df1 := setitem df "Month" (row_month <$> rows df) in
  setitem df1 "Season" (apply_str month_to_season (column df1 "Month")).

(** A cleaned table with the four columns: what [clean_weather_data] returns
    for an input that has them (lemma [clean_gives_cleaned_table]). *)
Definition cleaned_table (df : DataFrame) : Prop :=
  columns df = cols ∧ Forall (row_ok cols measurement_cols) (rows df).

(** What the specification says of the two aggregated tables. *)
Definition month_table_ok (df : DataFrame)
    (monthly : list (cell * gmap string cell)) : Prop :=
  Forall (λ e, ∃ m, 1 ≤ m ≤ 12 ∧ e.1 = month_cell m) monthly ∧
  ∀ m, (rows_of_month df m = [] → stats_loc monthly (month_cell m) = None) ∧
       (rows_of_month df m ≠ [] →
        ∃ line, stats_loc monthly (month_cell m) = Some line ∧
                bucket_summary (rows_of_month df m) line).

Definition season_table_ok (df : DataFrame)
    (seasonal : list (cell * gmap string cell)) : Prop :=
  ∀ s, (rows_of_season df s = [] → stats_loc seasonal (Str s) = None) ∧
       (rows_of_season df s ≠ [] →
        ∃ line, stats_loc seasonal (Str s) = Some line ∧
                bucket_summary (rows_of_season df s) line).

Definition scenario_cleaned : DataFrame :=
  mkFrame cols
    [ weather_row (Stamp (mkDate 2023 1 5)) (Num 10) (Num 0) (Num 50);
      weather_row (Stamp (mkDate 2023 1 6)) (Num 15) (Num 5) (Num 60);
      weather_row (Stamp (mkDate 2023 2 1)) (Num 20) (Num 10) (Num 70) ].

(** The rainfall entry of the line labelled [k] of an aggregated table. *)
Definition rainfall_of (st : list (cell * gmap string cell)) (k : cell)
  : option cell :=
  line ← stats_loc st k; line !! "Rainfall"%string.

(** A table whose Temperature column holds no number at all. *)
Definition no_temperature : DataFrame :=
  mkFrame cols
    [ weather_row (Str "2023-01-05") (Str "bad") (Num 1) (Num 50) ].

Definition no_temperature_cleaned : DataFrame :=
  mkFrame cols
    [ weather_row (Stamp (mkDate 2023 1 5)) NaN (Num 1) (Num 50) ].

(** The two aggregated tables of the scenario. *)
Definition stats_line (t r h : cell) : gmap string cell :=
  {[ "Temperature"%string := t; "Rainfall"%string := r;
     "Humidity"%string := h ]}.

Definition scenario_monthly : list (cell * gmap string cell) :=
  [ (month_cell 1, stats_line (Num (25 # 2)) (Num 5) (Num 55));
    (month_cell 2, stats_line (Num 20) (Num 10) (Num 70)) ].

Definition scenario_seasonal : list (cell * gmap string cell) :=
  [ (Str "Winter", stats_line (Num 15) (Num 15) (Num 60)) ].

(** The store after the grouping has run on the frame at address 0. *)
Definition after_grouping (df : DataFrame) : world :=
  mkWorld (<[fresh (dom (frames (one_frame df))) := seasoned df]>
             (frames (one_frame df)))
          (files (one_frame df)).

(** ** The statistics step *)

(** [df.set_index(c)]: a new frame without the column, and the column as its
    index; KeyError when the frame has no such column. *)
Definition set_index (df : DataFrame) (c : string)
  : option (list cell * DataFrame) :=
  if has_col df c
  then Some (column df c,
             mkFrame (filter (λ c', c' ≠ c) (columns df))
                     (delete c <$> rows df))
  else None.

Section Statistics.

(** [pd.to_datetime(s)] with the default [errors="raise"]: [None] when a
    value cannot be parsed. *)
Variable to_datetime_raise : list cell → option (list cell).
(** The resampled tables, and [df.resample(rule).mean()] and
    [df.resample(rule).agg(fs)] on an indexed frame. *)
Variable resampled : Type.
Variable resample_mean : list cell * DataFrame → string → resampled.
Variable resample_agg :
  list cell * DataFrame → string → list string → resampled.

Definition compute_statistics (r : nat) : M (gmap string resampled) :=
  (dates <- getitem_ref r "Date" ;;
   converted <- lift (to_datetime_raise dates) ;;
   setitem_inplace r "Date" converted ;;;
   df <- read_frame r ;;
   df <- lift (set_index df "Date") ;;
   let stats_result : gmap string resampled := ∅ in
   let daily := resample_mean df "D" in
   let stats_result := <["daily"%string := daily]> stats_result in
   let monthly := resample_agg df "M" ["mean"; "min"; "max"; "std"]%string in
   let stats_result := <["monthly"%string := monthly]> stats_result in
   let yearly := resample_agg df "Y" ["mean"; "min"; "max"; "std"]%string in
   let stats_result := <["yearly"%string := yearly]> stats_result in
   ret stats_result)%world.

End Statistics.

(** A cell of a datetime column: NaT or a timestamp. *)
Definition is_datetime (c : cell) : Prop :=
  match c with NaN | Stamp _ => True | _ => False end.

#[global] Instance is_datetime_dec c : Decision (is_datetime c).
Proof. destruct c; simpl; apply _. Defined.

(** The ISO instance of [pd.to_datetime(s)] with [errors="raise"]: a
    missing cell stays missing, any other cell must be a calendar date. *)
Definition iso_to_datetime_raise (s : list cell) : option (list cell) :=
  mapM (λ c, if isna c then Some NaN
             else match Iso.to_datetime1 c with
                  | NaN => None
                  | d => Some d
                  end) s.

(** ** More concrete tables *)

(** A raw table with a column the program does not know, its columns in
    another order, a row that is entirely empty and a row whose date is not
    a date. *)
Definition with_station : DataFrame :=
  mkFrame ["Station"; "Humidity"; "Date"; "Temperature"; "Rainfall"]%string
    [ <["Station"%string := Str "north"]>
        (weather_row (Str "2023-03-01") (Num 12) (Num 3) (Num 40));
      ∅;
      <["Station"%string := Str "north"]>
        (weather_row (Str "someday") (Num 14) (Num 1) (Num 45));
      <["Station"%string := Str "south"]>
        (weather_row (Str "2023-03-02") NaN (Num 2) (Num 50)) ].

Definition with_station_cleaned : DataFrame :=
  mkFrame cols
    [ weather_row (Stamp (mkDate 2023 3 1)) (Num 12) (Num 3) (Num 40);
      weather_row (Stamp (mkDate 2023 3 2)) (Num 12) (Num 2) (Num 50) ].

(** A table of dates without the Humidity column. *)
Definition no_humidity : DataFrame :=
  mkFrame ["Date"; "Temperature"; "Rainfall"]%string
    [ {[ "Date"%string := Stamp (mkDate 2023 1 5);
         "Temperature"%string := Num 10; "Rainfall"%string := Num 0 ]} ].

(** The scenario with its dates converted, the other cells as they were. *)
Definition scenario_dated : DataFrame :=
  mkFrame cols
    [ weather_row (Stamp (mkDate 2023 1 5)) (Num 10) (Num 0) (Num 50);
      weather_row (Stamp (mkDate 2023 1 6)) (Str "bad") (Num 5) (Num 60);
      weather_row (Stamp (mkDate 2023 2 1)) (Num 20) (Num 10) (Num 70) ].

(** Resampling with nothing to tell: the instance used on concrete
    tables. *)
Definition unit_resample_mean (df : list cell * DataFrame) (rule : string)
  : unit := tt.
Definition unit_resample_agg (df : list cell * DataFrame) (rule : string)
    (fs : list string) : unit := tt.

Definition three_stats : gmap string unit :=
  <["yearly"%string := tt]>
    (<["monthly"%string := tt]> (<["daily"%string := tt]> ∅)).

(** * Properties *)

(** ** Cells, rows and series *)

Lemma cell_at_insert_eq (r : gmap string cell) c v :
  cell_at (<[c:=v]> r) c = v.
Proof. unfold cell_at. by rewrite lookup_insert_eq. Qed.

Lemma cell_at_insert_ne (r : gmap string cell) c c' v :
  c ≠ c' → cell_at (<[c:=v]> r) c' = cell_at r c'.
Proof. intros Hne. unfold cell_at. by rewrite lookup_insert_ne. Qed.

Lemma cell_at_restrict cs (r : gmap string cell) c :
  c ∈ cs → cell_at (row_restrict cs r) c = cell_at r c.
Proof.
  intros Hin. unfold cell_at, row_restrict.
  destruct (r !! c) as [v|] eqn:Hr.
  - assert (filter (λ kv : string * cell, kv.1 ∈ cs) r !! c = Some v) as ->;
      [|done].
    by apply map_lookup_filter_Some.
  - assert (filter (λ kv : string * cell, kv.1 ∈ cs) r !! c = None) as ->;
      [|done].
    apply map_lookup_filter_None. by left.
Qed.

Lemma has_col_true df c : has_col df c = true ↔ c ∈ columns df.
Proof. unfold has_col. apply bool_decide_eq_true. Qed.

Lemma notna_true c : notna c = true ↔ isna c = false.
Proof. unfold notna. destruct (isna c); naive_solver. Qed.

Lemma zip_with_insert_fmap c (f : gmap string cell → cell)
    (rs : list (gmap string cell)) :
  zip_with (λ r v, <[c:=v]> r) rs (f <$> rs) = (λ r, <[c:=f r]> r) <$> rs.
Proof. induction rs as [|r rs IH]; simpl; [done|]. f_equal. exact IH. Qed.

Lemma column_setitem_fmap df c (f : gmap string cell → cell) :
  column (setitem df c (f <$> rows df)) c = f <$> rows df.
Proof.
  unfold column, setitem. cbn [rows]. rewrite zip_with_insert_fmap.
  rewrite <- list_fmap_compose. apply list_fmap_ext.
  intros i r _. simpl. apply cell_at_insert_eq.
Qed.

Lemma fillna_fmap {A} (f : A → cell) (l : list A) m :
  fillna (f <$> l) m = (λ x, if isna (f x) then m else f x) <$> l.
Proof. unfold fillna. by rewrite <- list_fmap_compose. Qed.

Lemma dropna_all_rows df :
  rows (dropna_all df) = drop_empty_rows (columns df) (rows df).
Proof.
  unfold dropna_all, drop_empty_rows. simpl.
  apply list_filter_iff. intros r. unfold row_all_na. split.
  - intros Hn. apply (not_Forall_Exists _) in Hn.
    eapply Exists_impl; [exact Hn|]. intros c Hc. simpl in Hc.
    apply notna_true. by destruct (isna (cell_at r c)).
  - intros [c [Hin Hc]]%Exists_exists Hall.
    rewrite Forall_forall in Hall. apply notna_true in Hc.
    specialize (Hall c Hin). congruence.
Qed.

Lemma known_columns_has_col df cs :
  columns df = cs →
  filter (λ c, has_col df c = true) cols = known_columns cs.
Proof.
  intros <-. apply list_filter_iff. intros c. apply has_col_true.
Qed.

Lemma known_columns_present df cs :
  columns df = cs → forallb (has_col df) (known_columns cs) = true.
Proof.
  intros <-. apply forallb_forall. intros c Hin.
  apply list_elem_of_In, list_elem_of_filter in Hin.
  apply has_col_true, Hin.
Qed.

(** ** Series, headers and filters *)

Lemma series_mean_none s : numeric_values s = [] → series_mean s = NaN.
Proof. unfold series_mean. by intros ->. Qed.

Lemma series_mean_some s :
  numeric_values s ≠ [] →
  series_mean s = Num (arith_mean (numeric_values s)).
Proof. unfold series_mean. by destruct (numeric_values s). Qed.

Lemma numeric_values_nil s :
  Forall is_float s → numeric_values s = [] → Forall (λ c, c = NaN) s.
Proof.
  unfold numeric_values.
  induction 1 as [|c s Hc Hs IH]; [done|].
  destruct c; try done; cbn; intros Hnil.
  constructor; auto.
Qed.

Lemma fillna_NaN s : fillna s NaN = s.
Proof.
  unfold fillna. induction s as [|c s IH]; [done|].
  cbn. f_equal; [by destruct c|exact IH].
Qed.

Lemma fillna_num s q : Forall is_float s → Forall is_num (fillna s (Num q)).
Proof.
  unfold fillna. intros Hs. apply Forall_fmap.
  eapply Forall_impl; [exact Hs|]. intros c Hc. by destruct c.
Qed.

Lemma fillna_full s v : Forall is_num s → fillna s v = s.
Proof.
  unfold fillna. induction 1 as [|c s Hc Hs IH]; [done|].
  cbn. f_equal; [by destruct c|exact IH].
Qed.

Lemma known_columns_elem cs c : c ∈ known_columns cs ↔ c ∈ cs ∧ c ∈ cols.
Proof. unfold known_columns. by rewrite list_elem_of_filter. Qed.

Lemma measurement_cols_cases c :
  c ∈ measurement_cols →
  c = "Temperature"%string ∨ c = "Rainfall"%string ∨ c = "Humidity"%string.
Proof.
  unfold measurement_cols. rewrite !elem_of_cons, elem_of_nil. naive_solver.
Qed.

Lemma measurement_cols_known cs c :
  c ∈ measurement_cols → c ∈ cs → c ∈ known_columns cs.
Proof.
  intros Hm Hc. apply known_columns_elem. split; [done|].
  unfold cols. apply measurement_cols_cases in Hm.
  rewrite !elem_of_cons. naive_solver.
Qed.

Lemma date_known cs :
  "Date"%string ∈ cs → "Date"%string ∈ known_columns cs.
Proof.
  intros Hc. apply known_columns_elem. split; [done|].
  unfold cols. rewrite !elem_of_cons. naive_solver.
Qed.

Lemma series_mean_float s : is_float (series_mean s).
Proof. unfold series_mean. by destruct (numeric_values s). Qed.

Lemma fill_cell_float m c : is_float m → is_float c → is_float (fill_cell m c).
Proof. unfold fill_cell. by destruct (isna c). Qed.

Lemma numeric_values_all_NaN {A} (f : A → cell) (l : list A) :
  (∀ x, x ∈ l → f x = NaN) → numeric_values (f <$> l) = [].
Proof.
  unfold numeric_values. induction l as [|x l IH]; intros Hall; [done|].
  cbn. rewrite (Hall x) by apply list_elem_of_here.
  apply IH. intros y Hy. apply Hall. by apply list_elem_of_further.
Qed.


Lemma filter_all {A} (P : A → Prop) `{!∀ x, Decision (P x)} (l : list A) :
  Forall P l → filter P l = l.
Proof.
  induction 1 as [|x l Hx Hl IH]; [done|].
  rewrite filter_cons, decide_True by done. by rewrite IH.
Qed.

Lemma filter_ext_in {A} (P R : A → Prop)
    `{!∀ x, Decision (P x), !∀ x, Decision (R x)} (l : list A) :
  (∀ x, x ∈ l → P x ↔ R x) → filter P l = filter R l.
Proof.
  induction l as [|x l IH]; intros Hext; [done|].
  rewrite !filter_cons.
  assert (filter P l = filter R l) as ->.
  { apply IH. intros y Hy. apply Hext. by apply list_elem_of_further. }
  destruct (decide (P x)) as [Hp|Hp], (decide (R x)) as [Hr|Hr]; try done;
    exfalso; apply (Hext x (list_elem_of_here _ _)) in Hp || 
    apply (Hext x (list_elem_of_here _ _)) in Hr; done.
Qed.

Lemma known_columns_idem cs :
  known_columns (known_columns cs) = known_columns cs.
Proof.
  change (filter (λ c, c ∈ known_columns cs) cols
          = filter (λ c, c ∈ cs) cols).
  apply filter_ext_in.
  intros c Hc. rewrite known_columns_elem. naive_solver.
Qed.

Lemma fillna_mean_idem s :
  Forall is_float s →
  fillna (fillna s (series_mean s)) (series_mean (fillna s (series_mean s)))
  = fillna s (series_mean s).
Proof.
  intros Hs. destruct (numeric_values s) as [|q vs] eqn:Hv.
  - rewrite (series_mean_none s Hv), fillna_NaN.
    by rewrite (series_mean_none s Hv), fillna_NaN.
  - rewrite (series_mean_some s) by (by rewrite Hv).
    apply fillna_full. by apply fillna_num.
Qed.

Lemma fillna_fixed_cell s m c :
  fillna s m = s → c ∈ s → fill_cell m c = c.
Proof.
  unfold fillna, fill_cell. induction s as [|x s IH]; intros Heq Hin.
  - by apply elem_of_nil in Hin.
  - cbn in Heq. injection Heq as Hx Hs.
    apply elem_of_cons in Hin as [-> | Hin]; [done|]. by apply IH.
Qed.

Lemma drop_empty_rows_fixed cs treated rs :
  "Date"%string ∈ cs →
  Forall (row_ok cs treated) rs → drop_empty_rows cs rs = rs.
Proof.
  intros Hdate Hok. unfold drop_empty_rows. apply filter_all.
  eapply Forall_impl; [exact Hok|]. intros r (_ & (d & Hd & Hv) & _).
  apply Exists_exists. exists "Date"%string. split; [done|].
  unfold cell_at. by rewrite Hd.
Qed.

Lemma keep_known_columns_fixed cs treated rs :
  Forall (row_ok (known_columns cs) treated) rs →
  keep_known_columns cs rs = rs.
Proof.
  intros Hok. unfold keep_known_columns.
  transitivity (id <$> rs); [|apply list_fmap_id]. apply Forall_fmap_ext.
  eapply Forall_impl; [exact Hok|]. intros r (Hkeys & _). cbn.
  unfold row_restrict. apply map_filter_id. intros k v Hk. cbn.
  apply Hkeys. by exists v.
Qed.

Section CleanerFacts.

Variable to_datetime : list cell → list cell.
Variable number_of_string : string → option Q.
Variable number_of_stamp : date → option Q.

Local Abbreviation to_numeric1 := (to_numeric1 number_of_string number_of_stamp).
Local Abbreviation to_numeric := (to_numeric number_of_string number_of_stamp).
Local Abbreviation impute_column := (impute_column number_of_string number_of_stamp).
Local Abbreviation coerced := (coerced number_of_string number_of_stamp).
Local Abbreviation coerce_and_impute :=
  (coerce_and_impute number_of_string number_of_stamp).
Local Abbreviation clean_weather_data :=
  (clean_weather_data to_datetime number_of_string number_of_stamp).
Local Abbreviation cleaner_by_stages :=
  (cleaner_by_stages to_datetime number_of_string number_of_stamp).
Local Abbreviation retained_rows := (retained_rows to_datetime).
Local Abbreviation parse_dates_and_drop := (parse_dates_and_drop to_datetime).

Lemma to_numeric1_float c : is_float (to_numeric1 c).
Proof.
  destruct c as [|q|s|d]; simpl; try done.
  - by destruct (number_of_string s).
  - by destruct (number_of_stamp d).
Qed.

Lemma to_numeric1_fix c : is_float c → to_numeric1 c = c.
Proof. by destruct c. Qed.

Lemma date_filter_rows (rs : list (gmap string cell)) (s : list cell) :
  filter (λ r, notna (cell_at r "Date") = true)
         (zip_with (λ r v, <["Date"%string:=v]> r) rs s)
  = omap (λ rd : gmap string cell * cell,
            if isna rd.2 then None else Some (<["Date"%string := rd.2]> rd.1))
         (zip rs s).
Proof.
  revert s. induction rs as [|r rs IH]; intros [|v s]; try done.
  cbn [zip_with zip]. rewrite filter_cons, cell_at_insert_eq.
  cbn [omap list_omap]. unfold notna. cbn [fst snd].
  destruct (isna v); cbn [negb].
  - rewrite decide_False by done. apply IH.
  - rewrite decide_True by done. f_equal. apply IH.
Qed.

Lemma impute_column_stage df col :
  impute_column df col
  = mkFrame (columns df) (coerce_and_impute (columns df) col (rows df)).
Proof.
  unfold impute_column, coerce_and_impute, has_col.
  destruct (bool_decide (col ∈ columns df)) eqn:Hc; [|by destruct df].
  assert (to_numeric (column df col)
          = (λ r, to_numeric1 (cell_at r col)) <$> rows df) as ->.
  { unfold to_numeric, column. by rewrite <- list_fmap_compose. }
  rewrite column_setitem_fmap.
  rewrite fillna_fmap.
  unfold setitem, has_col. cbn [rows columns]. rewrite Hc, Hc.
  f_equal. rewrite zip_with_insert_fmap.
  rewrite zip_with_fmap_l, zip_with_fmap_r, zip_with_diag.
  apply list_fmap_ext. intros i r _. cbn.
  by rewrite insert_insert_eq.
Qed.

(** The cleaner of the source computes what the staged description
    computes. *)
Lemma clean_weather_data_stages df :
  clean_weather_data df = cleaner_by_stages df.
Proof.
  unfold clean_weather_data, cleaner_by_stages, getitem.
  replace (has_col (dropna_all df) "Date")
    with (bool_decide ("Date"%string ∈ columns df)) by done.
  destruct (bool_decide ("Date"%string ∈ columns df)) eqn:Hd; [|done].
  cbn [mbind option_bind]. unfold dropna_subset.
  replace (has_col (setitem (dropna_all df) "Date" _) "Date") with true.
  2:{ unfold has_col, setitem, has_col. cbn [columns dropna_all].
      by rewrite !Hd. }
  cbn [mbind option_bind].
  set (df2 := mkFrame _ (filter _ _)).
  assert (columns df2 = columns df) as Hcs.
  { unfold df2, setitem, has_col. cbn [columns dropna_all]. by rewrite Hd. }
  rewrite (known_columns_has_col df2 (columns df) Hcs).
  unfold select. rewrite (known_columns_present df2 (columns df) Hcs).
  cbn [mbind option_bind]. f_equal.
  cbn [foldl measurement_cols].
  rewrite !impute_column_stage. cbn [columns rows]. f_equal.
  do 3 f_equal. unfold retained_rows, keep_known_columns. f_equal.
  unfold df2, setitem. cbn [rows].
  rewrite date_filter_rows. unfold parse_dates_and_drop, column.
  by rewrite dropna_all_rows.
Qed.

Lemma coerced_float col rs : Forall is_float (coerced col rs).
Proof.
  unfold coerced. apply Forall_fmap, Forall_true. intros r.
  apply to_numeric1_float.
Qed.

(** *** The stages, column by column *)

Lemma coerce_and_impute_other cs col c' rs :
  col ≠ c' →
  (λ r, cell_at r c') <$> coerce_and_impute cs col rs
  = (λ r, cell_at r c') <$> rs.
Proof.
  intros Hne. unfold coerce_and_impute. case_bool_decide; [|done].
  rewrite <- list_fmap_compose. apply list_fmap_ext. intros i r _. cbn.
  by apply cell_at_insert_ne.
Qed.

Lemma coerced_other cs col c' rs :
  col ≠ c' → coerced c' (coerce_and_impute cs col rs) = coerced c' rs.
Proof.
  intros Hne. unfold coerced.
  rewrite !(list_fmap_compose (λ r, cell_at r c') to_numeric1).
  by rewrite coerce_and_impute_other.
Qed.

Lemma coerce_and_impute_same cs col rs :
  col ∈ cs →
  (λ r, cell_at r col) <$> coerce_and_impute cs col rs
  = fillna (coerced col rs) (series_mean (coerced col rs)).
Proof.
  intros Hin. unfold coerce_and_impute. rewrite bool_decide_true by done.
  unfold coerced. rewrite fillna_fmap, <- list_fmap_compose.
  apply list_fmap_ext. intros i r _. cbn.
  by rewrite cell_at_insert_eq.
Qed.

(** What [clean_weather_data] returns, when it returns. *)
Lemma clean_weather_data_inv df out :
  clean_weather_data df = Some out →
  "Date"%string ∈ columns df ∧
  out = mkFrame (known_columns (columns df))
          (coerce_and_impute (known_columns (columns df)) "Humidity"
            (coerce_and_impute (known_columns (columns df)) "Rainfall"
              (coerce_and_impute (known_columns (columns df)) "Temperature"
                (retained_rows df)))).
Proof.
  rewrite clean_weather_data_stages. unfold cleaner_by_stages.
  case_bool_decide; [|done]. intros [= <-]. done.
Qed.

Lemma clean_measurement_column df out col :
  clean_weather_data df = Some out →
  col ∈ measurement_cols → col ∈ columns df →
  column out col
  = fillna (coerced col (retained_rows df))
           (series_mean (coerced col (retained_rows df))).
Proof.
  intros [_ ->]%clean_weather_data_inv Hm Hc.
  pose proof (measurement_cols_known _ _ Hm Hc) as Hk.
  unfold column. cbn [rows].
  destruct (measurement_cols_cases _ Hm) as [-> | [-> | ->]].
  - rewrite !coerce_and_impute_other by done.
    by apply coerce_and_impute_same.
  - rewrite coerce_and_impute_other by done.
    rewrite coerce_and_impute_same by done.
    by rewrite coerced_other.
  - rewrite coerce_and_impute_same by done.
    by rewrite !coerced_other.
Qed.

Lemma clean_length df out :
  clean_weather_data df = Some out →
  length (rows out) = length (retained_rows df).
Proof.
  intros [_ ->]%clean_weather_data_inv. cbn [rows].
  unfold coerce_and_impute.
  repeat case_bool_decide; by rewrite ?length_fmap.
Qed.

(** *** The contract of [pd.to_datetime]

    Its result is a datetime column: every cell is NaT or a calendar
    date; a column that already holds calendar dates comes back as it
    is. *)
Hypothesis to_datetime_stamps :
  ∀ s c, c ∈ to_datetime s → c = NaN ∨ valid_stamp c.
Hypothesis to_datetime_fix :
  ∀ s, Forall valid_stamp s → to_datetime s = s.

Lemma parse_dates_row rs r :
  r ∈ parse_dates_and_drop rs →
  ∃ d, r !! "Date"%string = Some (Stamp d) ∧ valid_date d.
Proof using to_datetime_stamps.
  unfold parse_dates_and_drop.
  intros [[r0 c] [Hin Hr]]%list_elem_of_omap. cbn [fst snd] in Hr.
  apply elem_of_zip_r in Hin.
  destruct (to_datetime_stamps _ _ Hin) as [-> | [d [-> Hd]]]; [done|].
  cbn in Hr. injection Hr as <-. exists d.
  by rewrite lookup_insert_eq.
Qed.

Lemma retained_row_ok df r :
  "Date"%string ∈ columns df →
  r ∈ retained_rows df → row_ok (known_columns (columns df)) [] r.
Proof using to_datetime_stamps.
  intros Hdate. unfold retained_rows, keep_known_columns.
  intros [r0 [-> Hin]]%list_elem_of_fmap.
  apply parse_dates_row in Hin as [d [Hd Hv]].
  split; [|split].
  - intros k [v Hk]. unfold row_restrict in Hk.
    apply map_lookup_filter_Some in Hk. apply Hk.
  - exists d. split; [|done]. unfold row_restrict.
    apply map_lookup_filter_Some. split; [done|].
    by apply date_known.
  - intros col Hcol. by apply elem_of_nil in Hcol.
Qed.

Lemma coerce_and_impute_row_ok cs treated col rs :
  col ≠ "Date"%string →
  Forall (row_ok cs treated) rs →
  Forall (row_ok cs (col :: treated)) (coerce_and_impute cs col rs).
Proof.
  intros Hne Hrs. unfold coerce_and_impute. case_bool_decide as Hc.
  - apply Forall_fmap. eapply Forall_impl; [exact Hrs|].
    intros r (Hkeys & (d & Hd & Hv) & Hdone). cbn. split; [|split].
    + intros k. destruct (decide (col = k)) as [<-|Hk]; [done|].
      rewrite lookup_insert_ne by done. apply Hkeys.
    + exists d. by rewrite lookup_insert_ne.
    + intros c' [-> | Hin]%elem_of_cons Hcs.
      * rewrite lookup_insert_eq. eexists. split; [done|].
        apply fill_cell_float;
          [apply series_mean_float | apply to_numeric1_float].
      * destruct (decide (col = c')) as [<-|Hk].
        -- rewrite lookup_insert_eq. eexists. split; [done|].
           apply fill_cell_float;
             [apply series_mean_float | apply to_numeric1_float].
        -- rewrite lookup_insert_ne by done. by apply Hdone.
  - eapply Forall_impl; [exact Hrs|].
    intros r (Hkeys & Hd & Hdone). split; [done|]. split; [done|].
    intros c' [-> | Hin]%elem_of_cons Hcs; [done|]. by apply Hdone.
Qed.

Lemma clean_rows_ok df out :
  clean_weather_data df = Some out →
  Forall (row_ok (columns out) measurement_cols) (rows out).
Proof using to_datetime_stamps.
  intros [Hdate ->]%clean_weather_data_inv. cbn [rows columns].
  assert (Forall (row_ok (known_columns (columns df)) []) (retained_rows df))
    as H0.
  { apply Forall_forall. intros r. by apply retained_row_ok. }
  apply (coerce_and_impute_row_ok _ _ "Temperature") in H0; [|done].
  apply (coerce_and_impute_row_ok _ _ "Rainfall") in H0; [|done].
  apply (coerce_and_impute_row_ok _ _ "Humidity") in H0; [|done].
  eapply Forall_impl; [exact H0|].
  intros r (Hkeys & Hd & Hdone). split; [done|]. split; [done|].
  intros col Hin. apply Hdone.
  apply measurement_cols_cases in Hin. rewrite !elem_of_cons. naive_solver.
Qed.

Lemma valid_values_present df col :
  valid_values to_datetime number_of_string number_of_stamp df col ≠ [] →
  col ∈ columns df.
Proof.
  intros Hne. destruct (decide (col ∈ known_columns (columns df))) as [Hk|Hk].
  { by apply known_columns_elem in Hk as [? _]. }
  exfalso. apply Hne. unfold valid_values, coerced.
  apply numeric_values_all_NaN. intros r Hr.
  unfold retained_rows, keep_known_columns in Hr.
  apply list_elem_of_fmap in Hr as [r0 [-> _]].
  unfold cell_at, row_restrict.
  replace (filter (λ kv : string * cell, kv.1 ∈ known_columns (columns df)) r0
             !! col) with (@None cell); [done|].
  symmetry. apply map_lookup_filter_None. right. intros v _. exact Hk.
Qed.

(** C1 (amended): in every row that survives cleaning the Date cell is a
    calendar date, and the cell of every measurement column whose mean,
    taken by [mean()] over the coerced column of the retained rows, is a
    number (not NaN) is a number.  (A column whose mean is NaN keeps its
    gaps: filling with NaN fills nothing.) *)
Theorem clean_rows_dated_and_numeric df out :
  clean_weather_data df = Some out →
  Forall (λ r,
            valid_stamp (cell_at r "Date") ∧
            ∀ col, col ∈ measurement_cols →
                   is_num (series_mean
                             (to_numeric
                                (column (retained to_datetime df) col))) →
                   is_num (cell_at r col))
         (rows out).
Proof using to_datetime_stamps.
  intros Hclean. apply Forall_forall. intros r Hr. split.
  - pose proof (clean_rows_ok df out Hclean) as Hok.
    rewrite Forall_forall in Hok.
    destruct (Hok r Hr) as (_ & (d & Hd & Hv) & _).
    exists d. unfold cell_at. by rewrite Hd.
  - intros col Hm Hmean.
    assert (to_numeric (column (retained to_datetime df) col)
            = coerced col (retained_rows df)) as Heq.
    { unfold coerced, to_numeric, column, retained. cbn [rows].
      by rewrite <- list_fmap_compose. }
    rewrite Heq in Hmean.
    assert (numeric_values (coerced col (retained_rows df)) ≠ []) as Hne.
    { intros Hnil. by rewrite (series_mean_none _ Hnil) in Hmean. }
    pose proof (valid_values_present df col Hne) as Hc.
    pose proof (clean_measurement_column df out col Hclean Hm Hc) as Hcol.
    rewrite series_mean_some in Hcol by exact Hne.
    assert (Forall is_num (column out col)) as Hall.
    { rewrite Hcol. apply fillna_num, coerced_float. }
    unfold column in Hall. rewrite Forall_fmap, Forall_forall in Hall.
    by apply Hall.
Qed.


(** C10: a measurement column without any valid value after coercion
    does not make the cleaner fail: the mean is NaN, filling with it
    changes nothing, and the whole column is missing in the result. *)
Theorem column_without_values_stays_missing df col :
  "Date"%string ∈ columns df →
  col ∈ measurement_cols → col ∈ columns df →
  valid_values to_datetime number_of_string number_of_stamp df col = [] →
  ∃ out,
    clean_weather_data df = Some out ∧
    series_mean (to_numeric (column (retained to_datetime df) col)) = NaN ∧
    column out col = to_numeric (column (retained to_datetime df) col) ∧
    length (rows out) = length (rows (retained to_datetime df)) ∧
    Forall (λ c, c = NaN) (column out col).
Proof.
  intros Hdate Hm Hc Hnil.
  destruct (clean_weather_data df) as [out|] eqn:Hclean.
  2:{ rewrite clean_weather_data_stages in Hclean.
      unfold cleaner_by_stages in Hclean.
      by rewrite bool_decide_true in Hclean. }
  exists out. split; [done|].
  assert (to_numeric (column (retained to_datetime df) col)
          = coerced col (retained_rows df)) as Heq.
  { unfold coerced, to_numeric, column, retained. cbn [rows].
    by rewrite <- list_fmap_compose. }
  rewrite Heq.
  pose proof (clean_measurement_column df out col Hclean Hm Hc) as Hcol.
  rewrite (series_mean_none _ Hnil) in Hcol |- *.
  rewrite fillna_NaN in Hcol.
  split; [done|]. split; [done|]. split.
  - apply (clean_length df out Hclean).
  - rewrite Hcol. apply numeric_values_nil; [apply coerced_float|done].
Qed.

(** *** Cleaning a cleaned table *)

Lemma coerce_and_impute_fixed cs treated col rs :
  col ∈ treated →
  Forall (row_ok cs treated) rs →
  (let s := (λ r, cell_at r col) <$> rs in fillna s (series_mean s) = s) →
  coerce_and_impute cs col rs = rs.
Proof.
  intros Hin Hok Hfix. unfold coerce_and_impute.
  case_bool_decide as Hc; [|done].
  assert (coerced col rs = (λ r, cell_at r col) <$> rs) as Hco.
  { unfold coerced. apply Forall_fmap_ext.
    eapply Forall_impl; [exact Hok|]. intros r (_ & _ & Hdone).
    destruct (Hdone col Hin Hc) as (c & Hr & Hf).
    apply to_numeric1_fix. unfold cell_at. by rewrite Hr. }
  rewrite Hco. cbn zeta in Hfix.
  transitivity (id <$> rs); [|apply list_fmap_id]. apply Forall_fmap_ext.
  apply Forall_forall. intros r Hr. cbn.
  rewrite Forall_forall in Hok.
  destruct (Hok r Hr) as (_ & _ & Hdone).
  destruct (Hdone col Hin Hc) as (c & Hlook & Hf).
  apply insert_id. rewrite Hlook. f_equal.
  assert (cell_at r col = c) as Hcell.
  { unfold cell_at. by rewrite Hlook. }
  rewrite Hcell, (to_numeric1_fix c Hf). symmetry.
  apply (fillna_fixed_cell _ _ _ Hfix).
  rewrite <- Hcell. by apply (list_elem_of_fmap_2 (λ r, cell_at r col)).
Qed.

Lemma parse_dates_and_drop_fixed cs treated rs :
  Forall (row_ok cs treated) rs → parse_dates_and_drop rs = rs.
Proof using to_datetime_fix.
  intros Hok. unfold parse_dates_and_drop.
  rewrite to_datetime_fix.
  2:{ apply Forall_fmap. eapply Forall_impl; [exact Hok|].
      intros r (_ & (d & Hd & Hv) & _). exists d. cbn. unfold cell_at.
      by rewrite Hd. }
  induction Hok as [|r rs Hr Hrs IH]; [done|].
  cbn. destruct Hr as (_ & (d & Hd & Hv) & _).
  unfold cell_at at 1 2. rewrite Hd. cbn.
  rewrite (insert_id r _ _ Hd). f_equal. exact IH.
Qed.

(** C3: cleaning the result of a cleaning returns that result: no row is
    dropped and no cell changes. *)
Theorem clean_weather_data_idempotent df out :
  clean_weather_data df = Some out →
  clean_weather_data out = Some out.
Proof using to_datetime_stamps to_datetime_fix.
  intros Hclean.
  pose proof (clean_rows_ok df out Hclean) as Hok.
  pose proof (clean_weather_data_inv df out Hclean) as [Hdate Hout].
  assert (columns out = known_columns (columns df)) as Hcs
    by (by rewrite Hout).
  assert (known_columns (columns out) = columns out) as Hkc
    by (rewrite Hcs; apply known_columns_idem).
  assert ("Date"%string ∈ columns out) as Hd
    by (rewrite Hcs; by apply date_known).
  assert (retained_rows out = rows out) as Hret.
  { unfold retained_rows.
    rewrite (drop_empty_rows_fixed _ _ _ Hd Hok).
    rewrite (parse_dates_and_drop_fixed _ _ _ Hok).
    apply (keep_known_columns_fixed _ measurement_cols).
    by rewrite Hkc. }
  assert (∀ col, col ∈ measurement_cols →
            coerce_and_impute (columns out) col (rows out) = rows out)
    as Hstage.
  { intros col Hm.
    destruct (decide (col ∈ columns out)) as [Hc|Hc].
    2:{ unfold coerce_and_impute. by rewrite bool_decide_false. }
    apply (coerce_and_impute_fixed _ measurement_cols); [done..|].
    cbn zeta. fold (column out col).
    assert (col ∈ columns df) as Hcdf.
    { rewrite Hcs in Hc. by apply known_columns_elem in Hc as [? _]. }
    rewrite (clean_measurement_column df out col Hclean Hm Hcdf).
    apply fillna_mean_idem, coerced_float. }
  rewrite clean_weather_data_stages. unfold cleaner_by_stages.
  rewrite bool_decide_true by done. rewrite Hkc, Hret.
  rewrite !Hstage; [by destruct out|..];
    unfold measurement_cols; rewrite !elem_of_cons; naive_solver.
Qed.

(** C8: the cleaner does what the staged description does, in that
    order: rows entirely empty are dropped from the raw table, the Date
    column of what is left is parsed and the rows without a date are
    dropped, and only the rows left after both are coerced and imputed;
    an unparseable date is never an error, the cleaner fails only when
    the table has no Date column. *)
Theorem clean_weather_data_in_stages df :
  clean_weather_data df = cleaner_by_stages df ∧
  (is_Some (clean_weather_data df) ↔ "Date"%string ∈ columns df) ∧
  (∀ out, clean_weather_data df = Some out →
     length (rows out)
     = length (parse_dates_and_drop
                 (drop_empty_rows (columns df) (rows df))) ∧
     ∀ col, col ∈ measurement_cols → col ∈ columns df →
       column out col
       = let s := to_numeric
                    ((λ r, cell_at r col) <$>
                       parse_dates_and_drop
                         (drop_empty_rows (columns df) (rows df))) in
         fillna s (series_mean s)).
Proof.
  split; [apply clean_weather_data_stages|]. split.
  - rewrite clean_weather_data_stages. unfold cleaner_by_stages.
    case_bool_decide; split; done.
  - intros out Hclean. split.
    + rewrite (clean_length df out Hclean).
      unfold retained_rows, keep_known_columns. by rewrite length_fmap.
    + intros col Hm Hc. cbn zeta.
      rewrite (clean_measurement_column df out col Hclean Hm Hc).
      assert (coerced col (retained_rows df)
              = to_numeric ((λ r, cell_at r col) <$>
                  parse_dates_and_drop
                    (drop_empty_rows (columns df) (rows df)))) as ->; [|done].
      unfold coerced, to_numeric, retained_rows, keep_known_columns.
      rewrite <- !list_fmap_compose. apply list_fmap_ext.
      intros i r _. cbn. f_equal. apply cell_at_restrict.
      by apply measurement_cols_known.
Qed.

End CleanerFacts.

(** ** Season assignment *)

Lemma cell_eq_int_month m n : cell_eq_int (month_cell m) n = (m =? n).
Proof.
  unfold cell_eq_int, month_cell.
  destruct (Z.eqb_spec m n) as [->|Hne].
  - apply Qeq_bool_iff. reflexivity.
  - apply not_true_is_false. intros Heq%Qeq_bool_iff.
    apply Hne. unfold Qeq in Heq. cbn in Heq. lia.
Qed.

Lemma month_in_month m l : month_in (month_cell m) l = bool_decide (m ∈ l).
Proof.
  unfold month_in. induction l as [|n l IH]; [done|].
  cbn [existsb]. rewrite IH, cell_eq_int_month.
  destruct (Z.eqb_spec m n) as [->|Hne]; cbn.
  - symmetry. apply bool_decide_eq_true. apply list_elem_of_here.
  - apply bool_decide_ext. rewrite elem_of_cons. naive_solver.
Qed.

(** C4: the season is a function of the month number alone, defined for
    every month, and sends 12, 1, 2 to Winter, 3, 4, 5 to Spring, 6, 7, 8 to
    Summer and 9, 10, 11 to Autumn; the four names being distinct, each
    month has exactly one season. *)
Theorem month_to_season_mapping (m : Z) :
  1 ≤ m ≤ 12 →
  (month_to_season (month_cell m) = "Winter"%string ↔ m = 12 ∨ m = 1 ∨ m = 2) ∧
  (month_to_season (month_cell m) = "Spring"%string ↔ m = 3 ∨ m = 4 ∨ m = 5) ∧
  (month_to_season (month_cell m) = "Summer"%string ↔ m = 6 ∨ m = 7 ∨ m = 8) ∧
  (month_to_season (month_cell m) = "Autumn"%string ↔ m = 9 ∨ m = 10 ∨ m = 11).
Proof.
  intros Hm.
  assert (m = 1 ∨ m = 2 ∨ m = 3 ∨ m = 4 ∨ m = 5 ∨ m = 6 ∨ m = 7 ∨ m = 8 ∨
          m = 9 ∨ m = 10 ∨ m = 11 ∨ m = 12) as Hcases by lia.
  unfold month_to_season. rewrite !month_in_month.
  repeat (destruct Hcases as [-> | Hcases]); try subst m; cbn;
    repeat split; intros H; try discriminate H; try reflexivity; lia.
Qed.

Lemma month_to_season_mapping_witness :
  1 ≤ 9 ≤ 12 ∧
  (month_to_season (month_cell 9) = "Autumn"%string ↔ 9 = 9 ∨ 9 = 10 ∨ 9 = 11).
Proof. split; [lia|]. apply (month_to_season_mapping 9). lia. Defined.

(** ** The day with highest rainfall *)

Lemma idxmax_from_spec s : ∀ i best k,
  idxmax_from i best s = Some k →
  (∃ b, best = Some (k, b) ∧ ∀ j q, s !! j = Some (Num q) → (q <= b)%Q)
  ∨ (∃ j q, k = (i + j)%nat ∧ s !! j = Some (Num q) ∧
       (∀ j0 b, best = Some (j0, b) → (b < q)%Q) ∧
       (∀ j' q', s !! j' = Some (Num q') → (q' <= q)%Q) ∧
       (∀ j' q', (j' < j)%nat → s !! j' = Some (Num q') → (q' < q)%Q)).
Proof.
  induction s as [|c s IH]; intros i best k Hk.
  - left. destruct best as [[k' b]|]; [|done]. injection Hk as ->.
    exists b. split; [done|]. intros j q Hj. done.
  - destruct c as [|q0|t|d].
    3, 4: done.
    { cbn in Hk.
      destruct (IH _ _ _ Hk)
        as [(b & -> & Hall) | (j & q & -> & Hj & Hb & Hall & Hlt)].
      - left. exists b. split; [done|].
        intros [|j] q Hq; [done|]. eauto.
      - right. exists (S j), q. split; [lia|].
        split; [done|]. split; [done|]. split.
        + intros [|j'] q' Hq; [done|]. eauto.
        + intros [|j'] q' Hlt' Hq; [done|]. apply (Hlt j'); [lia|done]. }
    cbn in Hk.
    assert (idxmax_from (S i) (Some (i, q0)) s = Some k →
            (∀ j0 b, best = Some (j0, b) → (b < q0)%Q) →
            (∃ b, best = Some (k, b) ∧
               ∀ j q, (Num q0 :: s) !! j = Some (Num q) → (q <= b)%Q)
            ∨ (∃ j q, k = (i + j)%nat ∧ (Num q0 :: s) !! j = Some (Num q) ∧
                 (∀ j0 b, best = Some (j0, b) → (b < q)%Q) ∧
                 (∀ j' q', (Num q0 :: s) !! j' = Some (Num q') → (q' <= q)%Q) ∧
                 (∀ j' q', (j' < j)%nat →
                    (Num q0 :: s) !! j' = Some (Num q') → (q' < q)%Q)))
      as Hnew.
    { intros Hk' Hbest.
      destruct (IH _ _ _ Hk') as [(b & [= <- <-] & Hall) | (j & q & -> & Hj & Hb & Hall & Hlt)].
      - right. exists 0%nat, q0. split; [lia|]. split; [done|].
        split; [done|]. split.
        + intros [|j'] q' Hq; [injection Hq as <-; apply Qle_refl|]. eauto.
        + intros j' q' Hlt'. lia.
      - right. exists (S j), q. split; [lia|]. split; [done|].
        pose proof (Hb i q0 eq_refl) as Hq0.
        split; [|split].
        + intros j0 b Hbb. eapply Qlt_trans; [by eapply Hbest|done].
        + intros [|j'] q' Hq; [injection Hq as <-; by apply Qlt_le_weak|].
          eauto.
        + intros [|j'] q' Hlt' Hq; [by injection Hq as <-|].
          apply (Hlt j'); [lia|done]. }
    destruct best as [[j0 b]|].
    * destruct (Qle_bool q0 b) eqn:Hle.
      -- apply Qle_bool_iff in Hle.
         destruct (IH _ _ _ Hk) as [(b' & [= <- <-] & Hall) | (j & q & -> & Hj & Hb & Hall & Hlt)].
         ++ left. exists b. split; [done|].
            intros [|j] q Hq; [by injection Hq as <-|]. eauto.
         ++ right. exists (S j), q. split; [lia|]. split; [done|].
            pose proof (Hb _ _ eq_refl) as Hbq.
            split; [done|]. split.
            ** intros [|j'] q' Hq; [|by eauto]. injection Hq as <-.
               apply Qlt_le_weak. eapply Qle_lt_trans; done.
            ** intros [|j'] q' Hlt' Hq; [|apply (Hlt j'); [lia|done]].
               injection Hq as <-. eapply Qle_lt_trans; done.
      -- apply Hnew; [done|]. intros ? ? [= <- <-].
         apply Qnot_le_lt. intros Hle'%Qle_bool_iff. congruence.
    * apply Hnew; [done|]. intros ? ? [=].
Qed.

Lemma idxmax_from_is_Some s : ∀ i best,
  Forall is_float s →
  is_Some best ∨ numeric_values s ≠ [] → is_Some (idxmax_from i best s).
Proof.
  unfold numeric_values.
  induction s as [|c s IH]; intros i best Hf Hb.
  - destruct Hb as [[? ->] | ?]; [by eexists|done].
  - apply Forall_cons in Hf as [Hc Hf].
    destruct c as [|q0|t|d]; cbn in *; try done; [by apply IH|].
    destruct best as [[j0 b]|]; [destruct (Qle_bool q0 b)|];
      apply IH; try done; left; by eexists.
Qed.

Section RainDay.

Variable to_datetime : list cell → list cell.
Variable number_of_string : string → option Q.
Variable number_of_stamp : date → option Q.
Hypothesis to_datetime_stamps :
  ∀ s c, c ∈ to_datetime s → c = NaN ∨ valid_stamp c.

Local Abbreviation clean_weather_data :=
  (clean_weather_data to_datetime number_of_string number_of_stamp).

(** In a cleaned table the Rainfall column is a float column and the Date
    column holds dates. *)
Lemma cleaned_rainfall_float raw df :
  clean_weather_data raw = Some df → "Rainfall"%string ∈ columns df →
  Forall is_float (column df "Rainfall").
Proof using to_datetime_stamps.
  intros Hclean Hc.
  pose proof (clean_rows_ok _ _ _ to_datetime_stamps raw df Hclean) as Hok.
  unfold column. apply Forall_fmap.
  eapply Forall_impl; [exact Hok|]. intros r (_ & _ & Hdone). cbn.
  destruct (Hdone "Rainfall"%string) as (c & Hr & Hf); [|done|].
  - apply list_elem_of_further, list_elem_of_here.
  - unfold cell_at. by rewrite Hr.
Qed.

Lemma cleaned_dates_stamps raw df :
  clean_weather_data raw = Some df →
  "Date"%string ∈ columns df ∧
  Forall (λ c, ∃ d, c = Stamp d) (column df "Date").
Proof using to_datetime_stamps.
  intros Hclean.
  pose proof (clean_rows_ok _ _ _ to_datetime_stamps raw df Hclean) as Hok.
  destruct (clean_weather_data_inv _ _ _ _ _ Hclean) as [Hdate Hout].
  split.
  - rewrite Hout. cbn [columns]. by apply date_known.
  - unfold column. apply Forall_fmap.
    eapply Forall_impl; [exact Hok|]. intros r (_ & (d & Hd & _) & _).
    exists d. cbn. unfold cell_at. by rewrite Hd.
Qed.

Lemma max_rain_day_cleaned raw df :
  clean_weather_data raw = Some df → "Rainfall"%string ∈ columns df →
  numeric_values (column df "Rainfall") ≠ [] →
  ∃ j q d,
    idxmax (column df "Rainfall") = Some j ∧
    max_rain_day df = Some (Stamp d) ∧
    max_rain_at df j q ∧
    column df "Date" !! j = Some (Stamp d) ∧
    ∀ j' q', (j' < j)%nat →
             column df "Rainfall" !! j' = Some (Num q') → (q' < q)%Q.
Proof using to_datetime_stamps.
  intros Hclean Hrain Hnum.
  pose proof (cleaned_rainfall_float raw df Hclean Hrain) as Hfloat.
  destruct (cleaned_dates_stamps raw df Hclean) as [Hdate Hstamps].
  destruct (idxmax_from_is_Some (column df "Rainfall") 0 None Hfloat)
    as [k Hk]; [by right|].
  destruct (idxmax_from_spec _ _ _ _ Hk)
    as [(b & [=] & _) | (j & q & -> & Hj & _ & Hall & Hlt)].
  cbn in Hk.
  assert (is_Some (column df "Date" !! j)) as [day Hday].
  { apply lookup_lt_is_Some. apply lookup_lt_Some in Hj.
    unfold column in *. by rewrite length_fmap in *. }
  rewrite Forall_forall in Hstamps.
  destruct (Hstamps day) as [d ->].
  { apply list_elem_of_lookup. by exists j. }
  exists j, q, d. split; [exact Hk|]. split; [|done].
  unfold max_rain_day, getitem, has_col, idxmax.
  rewrite !bool_decide_true by done. cbn [mbind option_bind].
  rewrite Hk. cbn [mbind option_bind]. by rewrite Hday.
Qed.

(** C7 (amended): on a cleaned table whose Rainfall column holds a number,
    in particular when two or more rows share the highest rainfall, the day
    reported for the highest rainfall is the date of the first row, in
    table order, among the rows that hold the greatest rainfall: every row
    before it holds strictly less. *)
Theorem max_rain_day_first_in_table_order raw df :
  clean_weather_data raw = Some df →
  "Rainfall"%string ∈ columns df →
  numeric_values (column df "Rainfall") ≠ [] →
  ∃ i q day,
    max_rain_day df = Some (Stamp day) ∧
    max_rain_at df i q ∧
    column df "Date" !! i = Some (Stamp day) ∧
    ∀ j q', (j < i)%nat →
            column df "Rainfall" !! j = Some (Num q') → (q' < q)%Q.
Proof using to_datetime_stamps.
  intros Hclean Hrain Hnum.
  destruct (max_rain_day_cleaned raw df Hclean Hrain Hnum)
    as (j & q & d & _ & Hday & Hmax & Hdate & Hfirst).
  by exists j, q, d.
Qed.

End RainDay.

(** ** The store: what the grouping touches *)

Lemma dt_month_stamps (rs : list (gmap string cell)) :
  Forall (λ r, ∃ d, cell_at r "Date" = Stamp d) rs →
  dt_month ((λ r, cell_at r "Date") <$> rs) = Some (row_month <$> rs).
Proof.
  unfold dt_month. induction 1 as [|r rs [d Hd] Hrs IH]; [done|].
  cbn. cbn in IH. rewrite IH. unfold row_month at 2. rewrite Hd. done.
Qed.

Lemma rows_seasoned df : rows (seasoned df) = with_season <$> rows df.
Proof.
  unfold seasoned. cbn zeta. rewrite column_setitem_fmap.
  unfold setitem at 1. cbn [rows]. unfold setitem. cbn [rows].
  rewrite zip_with_insert_fmap. unfold apply_str.
  rewrite <- list_fmap_compose, zip_with_fmap_l, zip_with_fmap_r, zip_with_diag.
  done.
Qed.

Lemma columns_seasoned df c :
  c ∈ columns (seasoned df) ↔
  c ∈ columns df ∨ c = "Month"%string ∨ c = "Season"%string.
Proof.
  unfold seasoned, setitem, has_col. cbn [columns].
  destruct (bool_decide ("Month"%string ∈ columns df)) eqn:Hm;
    [apply bool_decide_eq_true in Hm|];
    (destruct (bool_decide ("Season"%string ∈ _)) eqn:Hs;
      [apply bool_decide_eq_true in Hs|]);
    rewrite ?elem_of_app, ?elem_of_cons, ?elem_of_nil in *;
    naive_solver.
Qed.

(** What [add_season_column] does to the frame it is given: the frame
    itself gains the two derived columns. *)
Lemma add_season_column_run c w df :
  frames w !! c = Some df →
  "Date"%string ∈ columns df →
  Forall (λ r, ∃ d, cell_at r "Date" = Stamp d) (rows df) →
  add_season_column c w
  = Some (c, mkWorld (<[c := seasoned df]> (frames w)) (files w)).
Proof.
  intros Hc Hdate Hstamps.
  unfold add_season_column, getitem_ref, setitem_inplace, bind, read_frame,
    write_frame, lift, ret, getitem, has_col.
  rewrite Hc. cbn. rewrite bool_decide_true by done. cbn.
  unfold column at 1. rewrite (dt_month_stamps _ Hstamps). cbn.
  rewrite Hc. cbn. rewrite lookup_insert_eq. cbn.
  rewrite bool_decide_true.
  2:{ unfold setitem, has_col. cbn [columns]. case_bool_decide; [done|].
      rewrite elem_of_app, elem_of_cons. naive_solver. }
  cbn. rewrite lookup_insert_eq. cbn. rewrite insert_insert_eq. done.
Qed.

Lemma copy_run r w df :
  frames w !! r = Some df →
  copy r w = Some (fresh (dom (frames w)),
                   mkWorld (<[fresh (dom (frames w)) := df]> (frames w))
                           (files w)).
Proof.
  intros Hr. unfold copy, bind, read_frame, alloc_frame. by rewrite Hr.
Qed.

Lemma fresh_frame_ne r w df :
  frames w !! r = Some df → fresh (dom (frames w)) ≠ r.
Proof.
  intros Hr Heq. apply (is_fresh (dom (frames w))). rewrite Heq.
  apply elem_of_dom. by eexists.
Qed.

(** The grouping, run on a table whose Date column holds dates. *)
Lemma group_by_month_and_season_run r w df :
  frames w !! r = Some df →
  "Date"%string ∈ columns df →
  Forall (λ r, ∃ d, cell_at r "Date" = Stamp d) (rows df) →
  group_by_month_and_season r w
  = (monthly ← groupby_agg (seasoned df) "Month" agg_spec;
     seasonal ← groupby_agg (seasoned df) "Season" agg_spec;
     Some ((monthly, seasonal),
           mkWorld (<[fresh (dom (frames w)) := seasoned df]> (frames w))
                   (files w))).
Proof.
  intros Hr Hdate Hstamps. unfold group_by_month_and_season.
  unfold bind at 1. rewrite (copy_run r w df Hr).
  unfold bind at 1. rewrite (add_season_column_run _ _ df);
    [|cbn [frames]; by rewrite lookup_insert_eq|done..].
  cbn [frames files]. rewrite insert_insert_eq.
  unfold bind, read_frame, lift, ret. cbn [frames files].
  rewrite lookup_insert_eq. cbn.
  destruct (groupby_agg (seasoned df) "Month" agg_spec); [|done]. cbn.
  destruct (groupby_agg (seasoned df) "Season" agg_spec); done.
Qed.

(** ** Grouping and aggregation *)

Lemma stats_loc_labels (f : cell → gmap string cell) (ks : list cell) k :
  stats_loc ((λ k, (k, f k)) <$> ks) k
  = if decide (k ∈ ks) then Some (f k) else None.
Proof.
  unfold stats_loc. induction ks as [|k0 ks IH].
  - cbn. by rewrite decide_False by apply not_elem_of_nil.
  - cbn [fmap list_fmap list_find]. cbn [fst].
    destruct (decide (k0 = k)) as [->|Hne].
    + cbn. by rewrite decide_True by apply list_elem_of_here.
    + cbn in IH. rewrite <- option_fmap_compose. cbn.
      unfold compose. cbn. etransitivity; [exact IH|].
      destruct (decide (k ∈ ks)) as [Hin|Hin].
      * by rewrite decide_True by (by apply list_elem_of_further).
      * rewrite decide_False; [done|].
        rewrite elem_of_cons. naive_solver.
Qed.

Lemma group_keys_elem df key k :
  k ∈ group_keys df key ↔ k ≠ NaN ∧ k ∈ column df key.
Proof.
  unfold group_keys. rewrite merge_sort_Permutation.
  rewrite elem_of_remove_dups, list_elem_of_filter, notna_true.
  destruct k; naive_solver.
Qed.

Lemma groupby_agg_loc df key spec st k :
  groupby_agg df key spec = Some st →
  stats_loc st k
  = if decide (k ≠ NaN ∧ k ∈ column df key)
    then Some (aggregate spec (group_rows df key k))
    else None.
Proof.
  unfold groupby_agg. destruct (_ && _); [|done]. intros [= <-].
  rewrite (stats_loc_labels (λ k, aggregate spec (group_rows df key k))).
  destruct (decide (k ∈ group_keys df key)) as [Hin|Hin];
    rewrite group_keys_elem in Hin.
  - by rewrite decide_True.
  - by rewrite decide_False.
Qed.

Lemma groupby_agg_labels df key spec st e :
  groupby_agg df key spec = Some st → e ∈ st → e.1 ≠ NaN ∧ e.1 ∈ column df key.
Proof.
  unfold groupby_agg. destruct (_ && _); [|done]. intros [= <-].
  intros [k [-> Hk]]%list_elem_of_fmap. cbn. by apply group_keys_elem.
Qed.

Lemma cell_at_with_season r c :
  c ≠ "Month"%string → c ≠ "Season"%string →
  cell_at (with_season r) c = cell_at r c.
Proof.
  intros H1 H2. unfold with_season.
  by rewrite !cell_at_insert_ne.
Qed.

Lemma column_seasoned_month df :
  column (seasoned df) "Month" = row_month <$> rows df.
Proof.
  unfold column. rewrite rows_seasoned, <- list_fmap_compose.
  apply list_fmap_ext. intros i r _. cbn. unfold with_season.
  rewrite cell_at_insert_ne by done. apply cell_at_insert_eq.
Qed.

Lemma column_seasoned_season df :
  column (seasoned df) "Season"
  = (λ r, Str (month_to_season (row_month r))) <$> rows df.
Proof.
  unfold column. rewrite rows_seasoned, <- list_fmap_compose.
  apply list_fmap_ext. intros i r _. cbn. unfold with_season.
  apply cell_at_insert_eq.
Qed.

Lemma filter_fmap_comm {A B} (f : A → B) (P : B → Prop)
    `{!∀ y, Decision (P y)} (l : list A) :
  filter P (f <$> l) = f <$> filter (λ x, P (f x)) l.
Proof.
  induction l as [|x l IH]; [done|].
  cbn [fmap list_fmap]. rewrite !filter_cons.
  destruct (decide (P (f x))); cbn; [f_equal|]; exact IH.
Qed.

Lemma filter_nonempty {A} (P : A → Prop) `{!∀ x, Decision (P x)} (l : list A) :
  filter P l ≠ [] ↔ ∃ x, x ∈ l ∧ P x.
Proof.
  split.
  - destruct (filter P l) as [|x l'] eqn:Hf; [done|]. intros _.
    assert (x ∈ filter P l) as Hx by (rewrite Hf; apply list_elem_of_here).
    apply list_elem_of_filter in Hx. naive_solver.
  - intros (x & Hin & Hp) Hnil.
    assert (x ∈ filter P l) as Hx by (by apply list_elem_of_filter).
    rewrite Hnil in Hx. by apply elem_of_nil in Hx.
Qed.

Lemma aggregate_summary rs :
  bucket_summary rs (aggregate agg_spec (with_season <$> rs)).
Proof.
  assert (∀ c, c ≠ "Month"%string → c ≠ "Season"%string →
            (λ r, cell_at r c) <$> (with_season <$> rs)
            = (λ r, cell_at r c) <$> rs) as Hcol.
  { intros c H1 H2. rewrite <- list_fmap_compose. apply list_fmap_ext.
    intros i r _. cbn. by apply cell_at_with_season. }
  unfold bucket_summary, aggregate, agg_spec.
  cbn [fmap list_fmap list_to_map foldr fst snd uncurry].
  rewrite !Hcol by done. unfold cell_at.
  repeat split.
Qed.

Lemma group_rows_month df m :
  group_rows (seasoned df) "Month" (month_cell m)
  = with_season <$> rows_of_month df m.
Proof.
  unfold group_rows, rows_of_month. rewrite rows_seasoned, filter_fmap_comm.
  f_equal. apply list_filter_iff. intros r. unfold with_season.
  by rewrite cell_at_insert_ne, cell_at_insert_eq.
Qed.

Lemma group_rows_season df s :
  group_rows (seasoned df) "Season" (Str s)
  = with_season <$> rows_of_season df s.
Proof.
  unfold group_rows, rows_of_season. rewrite rows_seasoned, filter_fmap_comm.
  f_equal. apply list_filter_iff. intros r. unfold with_season.
  rewrite cell_at_insert_eq. naive_solver.
Qed.

Lemma cleaned_table_dates df :
  cleaned_table df →
  Forall (λ r, ∃ d, cell_at r "Date" = Stamp d ∧ valid_date d) (rows df).
Proof.
  intros [_ Hok]. eapply Forall_impl; [exact Hok|].
  intros r (_ & (d & Hd & Hv) & _). exists d. unfold cell_at. by rewrite Hd.
Qed.

Lemma cleaned_table_float df c :
  cleaned_table df → c ∈ measurement_cols → float_column (seasoned df) c.
Proof.
  intros [Hcs Hok] Hc. unfold float_column, column.
  rewrite rows_seasoned, <- list_fmap_compose. apply Forall_fmap.
  eapply Forall_impl; [exact Hok|]. intros r (_ & _ & Hdone). cbn.
  rewrite cell_at_with_season.
  - destruct (Hdone c Hc) as (v & Hv & Hf).
    + unfold cols. apply measurement_cols_cases in Hc.
      rewrite !elem_of_cons. naive_solver.
    + unfold cell_at. by rewrite Hv.
  - apply measurement_cols_cases in Hc. naive_solver.
  - apply measurement_cols_cases in Hc. naive_solver.
Qed.

Lemma groupby_agg_cleaned df key :
  cleaned_table df → key = "Month"%string ∨ key = "Season"%string →
  is_Some (groupby_agg (seasoned df) key agg_spec).
Proof.
  intros Hdf Hkey. unfold groupby_agg.
  assert (∀ c, c ∈ measurement_cols →
            has_col (seasoned df) c && bool_decide (float_column (seasoned df) c)
            = true) as Hc.
  { intros c Hc. apply andb_true_intro. split.
    - apply has_col_true, columns_seasoned. left. destruct Hdf as [-> _].
      unfold cols. apply measurement_cols_cases in Hc.
      rewrite !elem_of_cons. naive_solver.
    - apply bool_decide_eq_true. by apply cleaned_table_float. }
  assert (has_col (seasoned df) key = true) as ->.
  { apply has_col_true, columns_seasoned. naive_solver. }
  unfold agg_spec. cbn [forallb fst andb].
  rewrite !Hc; [by eexists|..];
    unfold measurement_cols; rewrite !elem_of_cons; naive_solver.
Qed.

Lemma valid_date_month d : valid_date d → 1 ≤ month d ≤ 12.
Proof.
  unfold valid_date, valid_dateb. intros H.
  repeat (apply andb_prop in H as [H ?]). lia.
Qed.

(** The two aggregated tables of a cleaned table. *)
Lemma grouping_of_cleaned_table df r w :
  cleaned_table df → frames w !! r = Some df →
  ∃ monthly seasonal,
    group_by_month_and_season r w
    = Some ((monthly, seasonal),
            mkWorld (<[fresh (dom (frames w)) := seasoned df]> (frames w))
                    (files w)) ∧
    month_table_ok df monthly ∧ season_table_ok df seasonal.
Proof.
  intros Hdf Hr.
  pose proof (cleaned_table_dates df Hdf) as Hdates.
  destruct (groupby_agg_cleaned df "Month" Hdf) as [monthly Hmon]; [by left|].
  destruct (groupby_agg_cleaned df "Season" Hdf) as [seasonal Hsea];
    [by right|].
  exists monthly, seasonal. split; [|split].
  - rewrite (group_by_month_and_season_run r w df Hr).
    + by rewrite Hmon, Hsea.
    + destruct Hdf as [-> _]. unfold cols. rewrite !elem_of_cons. naive_solver.
    + eapply Forall_impl; [exact Hdates|]. naive_solver.
  - split.
    + apply Forall_forall. intros e He.
      destruct (groupby_agg_labels _ _ _ _ e Hmon He) as [Hna Hin].
      rewrite column_seasoned_month in Hin.
      apply list_elem_of_fmap in Hin as (r0 & He1 & Hr0).
      rewrite Forall_forall in Hdates.
      destruct (Hdates r0 Hr0) as (d & Hd & Hv).
      exists (month d). split; [by apply valid_date_month|].
      rewrite He1. unfold row_month. by rewrite Hd.
    + intros m. rewrite (groupby_agg_loc _ _ _ _ _ Hmon).
      rewrite column_seasoned_month, group_rows_month. split.
      * intros Hnil. rewrite decide_False; [done|].
        intros [_ (r0 & Heq & Hr0)%list_elem_of_fmap].
        assert (rows_of_month df m ≠ []) as Hne; [|done].
        apply filter_nonempty. by exists r0.
      * intros (r0 & Hr0 & Heq)%filter_nonempty.
        rewrite decide_True.
        -- eexists. split; [done|]. apply aggregate_summary.
        -- split; [done|]. apply list_elem_of_fmap. by exists r0.
  - intros s. rewrite (groupby_agg_loc _ _ _ _ _ Hsea).
    rewrite column_seasoned_season, group_rows_season. split.
    + intros Hnil. rewrite decide_False; [done|].
      intros [_ (r0 & Heq & Hr0)%list_elem_of_fmap].
      assert (rows_of_season df s ≠ []) as Hne; [|done].
      apply filter_nonempty. exists r0. split; [done|]. by injection Heq.
    + intros (r0 & Hr0 & Heq)%filter_nonempty.
      rewrite decide_True.
      * eexists. split; [done|]. apply aggregate_summary.
      * split; [done|]. apply list_elem_of_fmap. exists r0. by rewrite Heq.
Qed.

Lemma known_columns_all cs : Forall (λ c, c ∈ cs) cols → known_columns cs = cols.
Proof. unfold known_columns. apply filter_all. Qed.

Lemma groupby_agg_columns df key st c :
  groupby_agg df key agg_spec = Some st → c ∈ measurement_cols →
  c ∈ columns df.
Proof.
  unfold groupby_agg.
  destruct (has_col df key); [|done]. cbn [andb].
  destruct (forallb _ _) eqn:Hall; [|done]. intros _ Hc.
  rewrite forallb_forall in Hall.
  apply measurement_cols_cases in Hc.
  assert (∃ f, In (c, f) agg_spec) as [f Hf].
  { unfold agg_spec. destruct Hc as [-> | [-> | ->]]; eexists; cbn; eauto. }
  specialize (Hall _ Hf). apply andb_prop in Hall as [Hcol _].
  by apply has_col_true in Hcol.
Qed.

(** Calling [add_season_column] on a table itself, without the copy, does
    change it: the two derived columns are added to its header. *)
Lemma add_season_column_changes_its_argument r w df :
  frames w !! r = Some df → cleaned_table df →
  ∃ w', add_season_column r w = Some (r, w') ∧
        frames w' !! r = Some (seasoned df) ∧
        columns (seasoned df) = cols ++ ["Month"; "Season"]%string.
Proof.
  intros Hr Hdf. pose proof (cleaned_table_dates df Hdf) as Hdates.
  destruct Hdf as [Hcs _]. eexists. split; [|split].
  - apply (add_season_column_run r w df Hr).
    + rewrite Hcs. unfold cols. rewrite !elem_of_cons. naive_solver.
    + eapply Forall_impl; [exact Hdates|]. naive_solver.
  - cbn [frames]. by rewrite lookup_insert_eq.
  - unfold seasoned, setitem, has_col. cbn [columns]. rewrite Hcs. done.
Qed.

Section Pipeline.

Variable to_datetime : list cell → list cell.
Variable number_of_string : string → option Q.
Variable number_of_stamp : date → option Q.
Hypothesis to_datetime_stamps :
  ∀ s c, c ∈ to_datetime s → c = NaN ∨ valid_stamp c.

Local Abbreviation clean_weather_data :=
  (clean_weather_data to_datetime number_of_string number_of_stamp).

Lemma clean_gives_cleaned_table raw df :
  clean_weather_data raw = Some df → columns df = cols → cleaned_table df.
Proof using to_datetime_stamps.
  intros Hclean Hcs. split; [done|]. rewrite <- Hcs.
  by apply (clean_rows_ok to_datetime number_of_string number_of_stamp
              to_datetime_stamps raw).
Qed.

(** C5: on a cleaned table the month-of-year grouping has one line per
    month number (1-12) that occurs, whatever the year, and the season
    grouping one line per season that occurs; each line holds the mean of
    the temperatures, the sum of the rainfalls and the mean of the
    humidities of its bucket, the same three functions for both. *)
Theorem month_and_season_grouping raw df r w :
  clean_weather_data raw = Some df → columns df = cols →
  frames w !! r = Some df →
  ∃ monthly seasonal w',
    group_by_month_and_season r w = Some ((monthly, seasonal), w') ∧
    month_table_ok df monthly ∧ season_table_ok df seasonal.
Proof using to_datetime_stamps.
  intros Hclean Hcs Hr.
  destruct (grouping_of_cleaned_table df r w) as (monthly & seasonal & H);
    [by eapply clean_gives_cleaned_table|done|].
  exists monthly, seasonal. eexists. exact H.
Qed.

(** C9: the grouping works on a copy: the cleaned table it was given is
    the same afterwards, no file is written, and the export that follows
    writes that table: a header with exactly Date, Temperature, Rainfall,
    Humidity and one record of four cells per retained row. *)
Theorem grouping_leaves_table_then_export raw df r w res w1 :
  clean_weather_data raw = Some df →
  frames w !! r = Some df →
  group_by_month_and_season r w = Some (res, w1) →
  frames w1 !! r = Some df ∧ files w1 = files w ∧
  ∃ w2, export_cleaned_data r w1 = Some (tt, w2) ∧
        frames w2 !! r = Some df ∧
        files w2 !! cleaned_path = Some (to_csv df) ∧
        header (to_csv df) = cols ∧
        length (records (to_csv df)) = length (rows df) ∧
        Forall (λ rec, length rec = 4%nat) (records (to_csv df)).
Proof using to_datetime_stamps.
  intros Hclean Hr Hrun.
  pose proof (clean_rows_ok to_datetime number_of_string number_of_stamp
                to_datetime_stamps raw df Hclean) as Hok.
  destruct (clean_weather_data_inv _ _ _ _ _ Hclean) as [Hdate Hout].
  assert (columns df = known_columns (columns raw)) as Hcs
    by (by rewrite Hout).
  rewrite (group_by_month_and_season_run r w df Hr) in Hrun.
  2:{ rewrite Hcs. by apply date_known. }
  2:{ eapply Forall_impl; [exact Hok|]. intros r0 (_ & (d & Hd & _) & _).
      exists d. unfold cell_at. by rewrite Hd. }
  destruct (groupby_agg (seasoned df) "Month" agg_spec) as [monthly|] eqn:Hmon;
    [|done].
  destruct (groupby_agg (seasoned df) "Season" agg_spec) as [seasonal|];
    [|done].
  cbn in Hrun. injection Hrun as <- <-. cbn [frames files].
  assert (frames w !! r = Some df →
          <[fresh (dom (frames w)) := seasoned df]> (frames w) !! r = Some df)
    as Hsame.
  { intros _. rewrite lookup_insert_ne; [done|]. by eapply fresh_frame_ne. }
  split; [by apply Hsame|]. split; [done|].
  assert (columns df = cols) as Hcols.
  { rewrite Hcs. apply known_columns_all. unfold cols.
    repeat (apply Forall_cons; split); [done|..|done];
      (assert (∀ c, c ∈ measurement_cols → c ∈ columns raw) as Hm;
       [|apply Hm; unfold measurement_cols; rewrite !elem_of_cons;
         naive_solver]);
      intros c Hc;
      pose proof (groupby_agg_columns _ _ _ c Hmon Hc) as Hin;
      apply columns_seasoned in Hin;
      apply measurement_cols_cases in Hc;
      (destruct Hin as [Hin | Hin];
       [rewrite Hcs in Hin; by apply known_columns_elem in Hin as [? _]
       |naive_solver]). }
  eexists. split.
  { unfold export_cleaned_data, bind, read_frame, write_file.
    cbn [frames files]. rewrite (Hsame Hr). cbn. reflexivity. }
  cbn [frames files]. split; [by apply Hsame|].
  split; [by rewrite lookup_insert_eq|].
  unfold to_csv. cbn [header records]. split; [done|].
  split; [by rewrite length_fmap|].
  apply Forall_fmap, Forall_true. intros r0. cbn.
  by rewrite length_fmap, Hcols.
Qed.

End Pipeline.

(** ** The ISO instance satisfies the contract of [pd.to_datetime] *)

Lemma iso_parse_date_valid s d : Iso.parse_date s = Some d → valid_date d.
Proof.
  unfold Iso.parse_date.
  destruct (list_ascii_of_string s)
    as [|y1 [|y2 [|y3 [|y4 [|s1 [|m1 [|m2 [|s2 [|d1 [|d2 [|? ?]]]]]]]]]]];
    try done.
  case_bool_decide; [|done].
  destruct (Iso.digits 0 [y1; y2; y3; y4]) as [y|]; [|done].
  destruct (Iso.digits 0 [m1; m2]) as [m|]; [|done].
  destruct (Iso.digits 0 [d1; d2]) as [dd|]; [|done]. cbn.
  destruct (valid_dateb (mkDate y m dd)) eqn:Hv; [|done].
  by intros [= <-].
Qed.

Lemma iso_to_datetime_stamps s c :
  c ∈ Iso.to_datetime s → c = NaN ∨ valid_stamp c.
Proof.
  unfold Iso.to_datetime. intros [x [-> _]]%list_elem_of_fmap.
  destruct x as [|q|t|d]; cbn; auto.
  - destruct (Iso.parse_date t) as [d|] eqn:Hp; cbn; [|by left].
    right. exists d. split; [done|]. by eapply iso_parse_date_valid.
  - destruct (valid_dateb d) eqn:Hv; [|by left]. right. by exists d.
Qed.

Lemma iso_to_datetime_fix s :
  Forall valid_stamp s → Iso.to_datetime s = s.
Proof.
  unfold Iso.to_datetime. induction 1 as [|c s [d [-> Hd]] Hs IH]; [done|].
  cbn. unfold valid_date in Hd. rewrite Hd. f_equal. exact IH.
Qed.

Lemma iso_clean_scenario : Iso.clean scenario = Some scenario_cleaned.
Proof. vm_compute. reflexivity. Qed.

Lemma iso_clean_ties : Iso.clean ties = Some ties_cleaned.
Proof. vm_compute. reflexivity. Qed.

Lemma iso_clean_no_temperature :
  Iso.clean no_temperature = Some no_temperature_cleaned.
Proof. vm_compute. reflexivity. Qed.

(** ** Concrete tables *)

(** C1, as stated, fails: a table whose Temperature column holds no number
    keeps its row, and the Temperature cell of that row is still missing
    after cleaning. *)
Lemma clean_leaves_temperature_missing :
  Iso.clean no_temperature = Some no_temperature_cleaned ∧
  ¬ Forall (λ r,
              valid_stamp (cell_at r "Date") ∧
              ∀ col, col ∈ measurement_cols → is_num (cell_at r col))
           (rows no_temperature_cleaned).
Proof.
  split; [exact iso_clean_no_temperature|].
  intros [[_ H] _]%Forall_cons.
  specialize (H "Temperature"%string).
  assert ("Temperature"%string ∈ measurement_cols) as Hin
    by apply list_elem_of_here.
  apply H in Hin. vm_compute in Hin. exact Hin.
Qed.

Lemma clean_rows_dated_and_numeric_witness :
  Iso.clean scenario = Some scenario_cleaned ∧
  Forall (λ r,
            valid_stamp (cell_at r "Date") ∧
            ∀ col, col ∈ measurement_cols →
                   is_num (series_mean
                             (to_numeric Iso.number_of_string
                                Iso.number_of_stamp
                                (column (retained Iso.to_datetime scenario)
                                   col))) →
                   is_num (cell_at r col))
         (rows scenario_cleaned).
Proof.
  split; [exact iso_clean_scenario|].
  apply (clean_rows_dated_and_numeric Iso.to_datetime Iso.number_of_string
           Iso.number_of_stamp iso_to_datetime_stamps scenario).
  exact iso_clean_scenario.
Defined.


Lemma column_without_values_stays_missing_witness :
  ∃ out,
    Iso.clean no_temperature = Some out ∧
    series_mean (to_numeric Iso.number_of_string Iso.number_of_stamp
                   (column (retained Iso.to_datetime no_temperature)
                      "Temperature")) = NaN ∧
    column out "Temperature"
    = to_numeric Iso.number_of_string Iso.number_of_stamp
        (column (retained Iso.to_datetime no_temperature) "Temperature") ∧
    length (rows out) = length (rows (retained Iso.to_datetime no_temperature)) ∧
    Forall (λ c, c = NaN) (column out "Temperature").
Proof.
  apply (column_without_values_stays_missing Iso.to_datetime
           Iso.number_of_string Iso.number_of_stamp no_temperature
           "Temperature").
  - apply list_elem_of_here.
  - apply list_elem_of_here.
  - apply list_elem_of_further, list_elem_of_here.
  - vm_compute. reflexivity.
Defined.

Lemma clean_weather_data_idempotent_witness :
  Iso.clean scenario = Some scenario_cleaned ∧
  Iso.clean scenario_cleaned = Some scenario_cleaned.
Proof.
  split; [exact iso_clean_scenario|].
  apply (clean_weather_data_idempotent Iso.to_datetime Iso.number_of_string
           Iso.number_of_stamp iso_to_datetime_stamps iso_to_datetime_fix
           scenario).
  exact iso_clean_scenario.
Defined.

Lemma month_and_season_grouping_witness :
  ∃ monthly seasonal w',
    group_by_month_and_season 0 (one_frame scenario_cleaned)
    = Some ((monthly, seasonal), w') ∧
    month_table_ok scenario_cleaned monthly ∧
    season_table_ok scenario_cleaned seasonal.
Proof.
  apply (month_and_season_grouping Iso.to_datetime Iso.number_of_string
           Iso.number_of_stamp iso_to_datetime_stamps scenario).
  - exact iso_clean_scenario.
  - reflexivity.
  - vm_compute. reflexivity.
Defined.

Lemma scenario_groups :
  group_by_month_and_season 0 (one_frame scenario_cleaned)
  = Some ((scenario_monthly, scenario_seasonal),
          after_grouping scenario_cleaned).
Proof. vm_compute. reflexivity. Qed.

(** C6, as stated, fails on its last part: the season table of the
    scenario has no line for Spring, so no rainfall sum (0 or other) is
    reported for it. *)
Lemma scenario_reports_no_spring_rainfall :
  Iso.clean scenario = Some scenario_cleaned ∧
  fst <$> group_by_month_and_season 0 (one_frame scenario_cleaned)
  = Some (scenario_monthly, scenario_seasonal) ∧
  rainfall_of scenario_seasonal (Str "Spring") ≠ Some (Num 0).
Proof.
  split; [exact iso_clean_scenario|].
  split; [by rewrite scenario_groups|].
  vm_compute. discriminate.
Qed.

(** C6 (amended): cleaning the scenario puts mean(10, 20) = 15 in the
    temperature of its second row; the monthly rainfall sums are 5 for
    January and 10 for February; the season table has a single line, Winter,
    whose rainfall sum is 15, and no line for Spring, Summer or Autumn. *)
Theorem scenario_cleaning_and_grouping :
  Iso.clean scenario = Some scenario_cleaned ∧
  column scenario_cleaned "Temperature" = [Num 10; Num 15; Num 20] ∧
  (arith_mean [10; 20] == 15)%Q ∧
  fst <$> group_by_month_and_season 0 (one_frame scenario_cleaned)
  = Some (scenario_monthly, scenario_seasonal) ∧
  rainfall_of scenario_monthly (month_cell 1) = Some (Num 5) ∧
  rainfall_of scenario_monthly (month_cell 2) = Some (Num 10) ∧
  rainfall_of scenario_seasonal (Str "Winter") = Some (Num 15) ∧
  fst <$> scenario_seasonal = [Str "Winter"] ∧
  stats_loc scenario_seasonal (Str "Spring") = None ∧
  stats_loc scenario_seasonal (Str "Summer") = None ∧
  stats_loc scenario_seasonal (Str "Autumn") = None.
Proof.
  split; [exact iso_clean_scenario|].
  split; [vm_compute; reflexivity|].
  split; [vm_compute; reflexivity|].
  split; [by rewrite scenario_groups|].
  repeat split; vm_compute; reflexivity.
Qed.

(** C7, as stated, fails: with two days tied for the highest rainfall and
    the later day first in the table, the report names the later day. *)
Lemma max_rain_day_not_earliest_of_ties :
  Iso.clean ties = Some ties_cleaned ∧ ¬ reports_earliest_tie ties_cleaned.
Proof.
  split; [exact iso_clean_ties|]. intros H.
  specialize (H (mkDate 2023 2 1) eq_refl 1%nat 5%Q (mkDate 2023 1 1)).
  assert (date_leb (mkDate 2023 2 1) (mkDate 2023 1 1) = true) as Hle;
    [|vm_compute in Hle; discriminate].
  apply H; [|reflexivity]. split; [reflexivity|].
  intros [|[|j]] q' Hq; vm_compute in Hq; try discriminate Hq;
    injection Hq as <-; vm_compute; discriminate.
Qed.

Lemma max_rain_day_first_in_table_order_witness :
  Iso.clean ties = Some ties_cleaned ∧
  ∃ i q day,
    max_rain_day ties_cleaned = Some (Stamp day) ∧
    max_rain_at ties_cleaned i q ∧
    column ties_cleaned "Date" !! i = Some (Stamp day) ∧
    ∀ j q', (j < i)%nat →
            column ties_cleaned "Rainfall" !! j = Some (Num q') → (q' < q)%Q.
Proof.
  split; [exact iso_clean_ties|].
  apply (max_rain_day_first_in_table_order Iso.to_datetime
           Iso.number_of_string Iso.number_of_stamp iso_to_datetime_stamps
           ties ties_cleaned).
  - exact iso_clean_ties.
  - apply list_elem_of_further, list_elem_of_further, list_elem_of_here.
  - vm_compute. discriminate.
Defined.

Lemma grouping_leaves_table_then_export_witness :
  group_by_month_and_season 0 (one_frame scenario_cleaned)
  = Some ((scenario_monthly, scenario_seasonal),
          after_grouping scenario_cleaned) ∧
  frames (after_grouping scenario_cleaned) !! 0%nat = Some scenario_cleaned ∧
  files (after_grouping scenario_cleaned) = files (one_frame scenario_cleaned) ∧
  ∃ w2, export_cleaned_data 0 (after_grouping scenario_cleaned)
        = Some (tt, w2) ∧
        frames w2 !! 0%nat = Some scenario_cleaned ∧
        files w2 !! cleaned_path = Some (to_csv scenario_cleaned) ∧
        header (to_csv scenario_cleaned) = cols ∧
        length (records (to_csv scenario_cleaned))
        = length (rows scenario_cleaned) ∧
        Forall (λ rec, length rec = 4%nat) (records (to_csv scenario_cleaned)).
Proof.
  split; [exact scenario_groups|].
  apply (grouping_leaves_table_then_export Iso.to_datetime
           Iso.number_of_string Iso.number_of_stamp iso_to_datetime_stamps
           scenario scenario_cleaned 0%nat (one_frame scenario_cleaned)
           (scenario_monthly, scenario_seasonal)).
  - exact iso_clean_scenario.
  - reflexivity.
  - exact scenario_groups.
Defined.

(** * Further properties of the pipeline *)

(** ** The cleaner: header and row count *)

Lemma length_omap_le {A B} (f : A → option B) (l : list A) :
  (length (omap f l) ≤ length l)%nat.
Proof.
  induction l as [|x l IH]; [done|]. cbn. destruct (f x); cbn; lia.
Qed.

Section CleanerMore.

Variable to_datetime : list cell → list cell.
Variable number_of_string : string → option Q.
Variable number_of_stamp : date → option Q.
Hypothesis to_datetime_stamps :
  ∀ s c, c ∈ to_datetime s → c = NaN ∨ valid_stamp c.

Local Abbreviation clean_weather_data :=
  (clean_weather_data to_datetime number_of_string number_of_stamp).

(** X1: the header of the cleaned table is the part of Date, Temperature,
    Rainfall, Humidity that the input has, in that fixed order whatever the
    order of the input columns, and no row keeps a cell of another
    column. *)
Theorem clean_keeps_known_columns df out :
  clean_weather_data df = Some out →
  columns out = filter (λ c, c ∈ columns df) cols ∧
  "Date"%string ∈ columns out ∧
  Forall (λ r, ∀ k, is_Some (r !! k) → k ∈ columns out) (rows out).
Proof using to_datetime_stamps.
  intros Hclean.
  pose proof (clean_rows_ok _ _ _ to_datetime_stamps df out Hclean) as Hok.
  destruct (clean_weather_data_inv _ _ _ _ _ Hclean) as [Hdate Hout].
  assert (columns out = known_columns (columns df)) as Hcs
    by (by rewrite Hout).
  split; [exact Hcs|]. split.
  - rewrite Hcs. by apply date_known.
  - eapply Forall_impl; [exact Hok|]. by intros r (Hkeys & _).
Qed.

(** X2: cleaning never adds a row: the cleaned table has at most as many rows
    as the input, so an empty input gives an empty table. *)
Theorem clean_never_adds_rows df out :
  clean_weather_data df = Some out →
  (length (rows out) ≤ length (rows df))%nat.
Proof.
  intros Hclean.
  rewrite (clean_length _ _ _ _ _ Hclean).
  unfold retained_rows, keep_known_columns, parse_dates_and_drop,
    drop_empty_rows.
  rewrite length_fmap.
  etransitivity; [apply length_omap_le|].
  rewrite length_zip.
  etransitivity; [apply Nat.le_min_l|]. apply length_filter.
Qed.

End CleanerMore.

(** ** [add_season_column]: what it adds, when it fails *)

Lemma dt_month_datetime (rs : list (gmap string cell)) :
  Forall (λ r, is_datetime (cell_at r "Date")) rs →
  dt_month ((λ r, cell_at r "Date") <$> rs) = Some (row_month <$> rs).
Proof.
  unfold dt_month. induction 1 as [|r rs Hr Hrs IH]; [done|].
  cbn. cbn in IH. rewrite IH. unfold row_month at 2.
  by destruct (cell_at r "Date").
Qed.

Lemma dt_month_not_datetime s :
  Exists (λ c, ¬ is_datetime c) s → dt_month s = None.
Proof.
  unfold dt_month. intros Hex. apply mapM_None.
  eapply Exists_impl; [exact Hex|]. intros c Hc. by destruct c.
Qed.

Lemma add_season_column_run_datetime c w df :
  frames w !! c = Some df →
  "Date"%string ∈ columns df →
  Forall is_datetime (column df "Date") →
  add_season_column c w
  = Some (c, mkWorld (<[c := seasoned df]> (frames w)) (files w)).
Proof.
  intros Hc Hdate Hdt.
  unfold column in Hdt. rewrite Forall_fmap in Hdt.
  unfold add_season_column, getitem_ref, setitem_inplace, bind, read_frame,
    write_frame, lift, ret, getitem, has_col.
  rewrite Hc. cbn. rewrite bool_decide_true by done. cbn.
  unfold column at 1. rewrite (dt_month_datetime _ Hdt). cbn.
  rewrite Hc. cbn. rewrite lookup_insert_eq. cbn.
  rewrite bool_decide_true.
  2:{ unfold setitem, has_col. cbn [columns]. case_bool_decide; [done|].
      rewrite elem_of_app, elem_of_cons. naive_solver. }
  cbn. rewrite lookup_insert_eq. cbn. rewrite insert_insert_eq. done.
Qed.

Lemma column_seasoned_other df c :
  c ≠ "Month"%string → c ≠ "Season"%string →
  column (seasoned df) c = column df c.
Proof.
  intros H1 H2. unfold column. rewrite rows_seasoned, <- list_fmap_compose.
  apply list_fmap_ext. intros i r _. cbn. by apply cell_at_with_season.
Qed.

(** X4: on a table whose Date column is a datetime column, [add_season_column]
    changes the frame it is given and nothing else: the frame keeps its rows
    and its other columns, gains Month and Season, Month is the month of the
    date (missing for a missing date), Season is [month_to_season] of Month,
    and a row without a date is labelled Autumn. *)
Theorem add_season_column_effect r w df :
  frames w !! r = Some df →
  "Date"%string ∈ columns df →
  Forall is_datetime (column df "Date") →
  ∃ df',
    add_season_column r w
    = Some (r, mkWorld (<[r := df']> (frames w)) (files w)) ∧
    length (rows df') = length (rows df) ∧
    (∀ c, c ∈ columns df' ↔
          c ∈ columns df ∨ c = "Month"%string ∨ c = "Season"%string) ∧
    (∀ c, c ≠ "Month"%string → c ≠ "Season"%string →
          column df' c = column df c) ∧
    Forall2 (λ d m, m = match d with
                        | Stamp dt => month_cell (month dt)
                        | _ => NaN
                        end)
            (column df "Date") (column df' "Month") ∧
    Forall2 (λ m s, s = Str (month_to_season m))
            (column df' "Month") (column df' "Season") ∧
    Forall2 (λ d s, d = NaN → s = Str "Autumn")
            (column df "Date") (column df' "Season").
Proof.
  intros Hr Hdate Hdt. exists (seasoned df).
  split; [by apply add_season_column_run_datetime|].
  split; [by rewrite rows_seasoned, length_fmap|].
  split; [apply columns_seasoned|].
  split; [intros c; apply column_seasoned_other|].
  rewrite column_seasoned_month, column_seasoned_season. unfold column.
  split; [|split].
  - apply Forall2_fmap, Forall_Forall2_diag, Forall_true. intros r0. done.
  - apply Forall2_fmap, Forall_Forall2_diag, Forall_true. intros r0. done.
  - apply Forall2_fmap, Forall_Forall2_diag, Forall_true. intros r0. cbn.
    unfold row_month. by intros ->.
Qed.

Lemma with_season_idem r : with_season (with_season r) = with_season r.
Proof.
  assert (row_month (with_season r) = row_month r) as Hm.
  { unfold row_month. by rewrite cell_at_with_season. }
  unfold with_season at 1. rewrite Hm. unfold with_season.
  apply map_eq. intros k.
  destruct (decide (k = "Season"%string)) as [->|Hs];
    [by rewrite !lookup_insert_eq|].
  rewrite !(lookup_insert_ne _ "Season"%string) by done.
  destruct (decide (k = "Month"%string)) as [->|Hk];
    [by rewrite !lookup_insert_eq|].
  rewrite !(lookup_insert_ne _ "Month"%string) by done.
  repeat (rewrite lookup_insert_ne by done). done.
Qed.

Lemma seasoned_idem df : seasoned (seasoned df) = seasoned df.
Proof.
  assert (rows (seasoned (seasoned df)) = rows (seasoned df)) as Hrows.
  { rewrite !rows_seasoned, <- list_fmap_compose. apply list_fmap_ext.
    intros i r _. cbn. apply with_season_idem. }
  assert (columns (seasoned (seasoned df)) = columns (seasoned df)) as Hcols.
  { unfold seasoned at 1. unfold setitem, has_col. cbn [columns].
    rewrite (bool_decide_true ("Month"%string ∈ columns (seasoned df)))
      by (apply columns_seasoned; naive_solver).
    rewrite bool_decide_true by (apply columns_seasoned; naive_solver).
    done. }
  destruct (seasoned (seasoned df)), (seasoned df). cbn in *. by subst.
Qed.

(** X5: calling [add_season_column] again on the frame it has just completed
    changes nothing: Month and Season are overwritten with the same values
    and the header does not grow. *)
Theorem add_season_column_twice r w df w1 :
  frames w !! r = Some df →
  "Date"%string ∈ columns df →
  Forall is_datetime (column df "Date") →
  add_season_column r w = Some (r, w1) →
  add_season_column r w1 = Some (r, w1).
Proof.
  intros Hr Hdate Hdt Hrun.
  rewrite (add_season_column_run_datetime r w df Hr Hdate Hdt) in Hrun.
  injection Hrun as <-.
  rewrite (add_season_column_run_datetime r _ (seasoned df)).
  - cbn [frames files]. by rewrite seasoned_idem, insert_insert_eq.
  - cbn [frames]. by rewrite lookup_insert_eq.
  - apply columns_seasoned. by left.
  - by rewrite column_seasoned_other.
Qed.

(** X6: [add_season_column] raises when the frame has no Date column, and when
    that column holds a cell that is not a date (text or a number): the
    [.dt] accessor exists on datetime columns only. *)
Theorem add_season_column_fails r w df :
  frames w !! r = Some df →
  "Date"%string ∉ columns df ∨
    Exists (λ c, ¬ is_datetime c) (column df "Date") →
  add_season_column r w = None.
Proof.
  intros Hr Hbad.
  unfold add_season_column, getitem_ref, bind, read_frame, lift, getitem,
    has_col.
  rewrite Hr. cbn.
  destruct (decide ("Date"%string ∈ columns df)) as [Hd|Hd].
  - destruct Hbad as [?|Hex]; [done|].
    rewrite bool_decide_true by done. cbn.
    by rewrite (dt_month_not_datetime _ Hex).
  - by rewrite bool_decide_false.
Qed.

Lemma group_by_month_and_season_run_datetime r w df :
  frames w !! r = Some df →
  "Date"%string ∈ columns df →
  Forall is_datetime (column df "Date") →
  group_by_month_and_season r w
  = (monthly ← groupby_agg (seasoned df) "Month" agg_spec;
     seasonal ← groupby_agg (seasoned df) "Season" agg_spec;
     Some ((monthly, seasonal),
           mkWorld (<[fresh (dom (frames w)) := seasoned df]> (frames w))
                   (files w))).
Proof.
  intros Hr Hdate Hdt. unfold group_by_month_and_season.
  unfold bind at 1. rewrite (copy_run r w df Hr).
  unfold bind at 1. rewrite (add_season_column_run_datetime _ _ df);
    [|cbn [frames]; by rewrite lookup_insert_eq|done..].
  cbn [frames files]. rewrite insert_insert_eq.
  unfold bind, read_frame, lift, ret. cbn [frames files].
  rewrite lookup_insert_eq. cbn.
  destruct (groupby_agg (seasoned df) "Month" agg_spec); [|done]. cbn.
  destruct (groupby_agg (seasoned df) "Season" agg_spec); done.
Qed.

(** X7: the grouping raises when the table lacks one of Temperature, Rainfall,
    Humidity: the aggregation names all three. *)
Theorem group_by_needs_measurement_columns r w df c :
  frames w !! r = Some df →
  c ∈ measurement_cols → c ∉ columns df →
  group_by_month_and_season r w = None.
Proof.
  intros Hr Hm Hc.
  destruct (decide ("Date"%string ∈ columns df
                    ∧ Forall is_datetime (column df "Date")))
    as [[Hdate Hdt]|Hno].
  - rewrite (group_by_month_and_season_run_datetime r w df Hr Hdate Hdt).
    destruct (groupby_agg (seasoned df) "Month" agg_spec) as [st|] eqn:Hg;
      [|done].
    exfalso. apply Hc.
    pose proof (groupby_agg_columns _ _ _ c Hg Hm) as Hin.
    apply columns_seasoned in Hin. apply measurement_cols_cases in Hm.
    naive_solver.
  - unfold group_by_month_and_season. unfold bind at 1.
    rewrite (copy_run r w df Hr). unfold bind at 1.
    rewrite (add_season_column_fails _ _ df); [done| |].
    + cbn [frames]. by rewrite lookup_insert_eq.
    + destruct (decide ("Date"%string ∈ columns df)) as [Hd|Hd]; [|by left].
      right. apply not_Forall_Exists; [apply _|]. naive_solver.
Qed.

(** ** The day with highest rainfall: when there is none *)

Lemma idxmax_from_none s i :
  numeric_values s = [] → idxmax_from i None s = None.
Proof.
  unfold numeric_values. revert i.
  induction s as [|c s IH]; intros i Hnil; [done|].
  destruct c; cbn in *; try done; by apply IH.
Qed.

Section RainDayFails.

Variable to_datetime : list cell → list cell.
Variable number_of_string : string → option Q.
Variable number_of_stamp : date → option Q.
Hypothesis to_datetime_stamps :
  ∀ s c, c ∈ to_datetime s → c = NaN ∨ valid_stamp c.

(** X8: on a cleaned table the report has no "day with highest rainfall"
    exactly when the table has no Rainfall column or its Rainfall column
    holds no number at all (an empty table, or a column that is entirely
    missing). *)
Theorem max_rain_day_fails_iff raw df :
  clean_weather_data to_datetime number_of_string number_of_stamp raw
  = Some df →
  (max_rain_day df = None ↔
   "Rainfall"%string ∉ columns df ∨
   numeric_values (column df "Rainfall") = []).
Proof using to_datetime_stamps.
  intros Hclean. split.
  - intros Hnone.
    destruct (decide ("Rainfall"%string ∈ columns df)) as [Hr|Hr]; [|by left].
    right.
    destruct (numeric_values (column df "Rainfall")) as [|q vs] eqn:Hv;
      [done|].
    destruct (max_rain_day_cleaned _ _ _ to_datetime_stamps raw df Hclean Hr)
      as (j & x & d & _ & Hday & _); [by rewrite Hv|congruence].
  - unfold max_rain_day, getitem, has_col, idxmax. intros [Hr|Hv].
    + by rewrite (bool_decide_false _ Hr).
    + destruct (bool_decide ("Rainfall"%string ∈ columns df)); [|done].
      cbn [mbind option_bind]. by rewrite (idxmax_from_none _ _ Hv).
Qed.

End RainDayFails.

(** ** The statistics step *)


Section StatisticsFacts.

Variable to_datetime_raise : list cell → option (list cell).
Variable resampled : Type.
Variable resample_mean : list cell * DataFrame → string → resampled.
Variable resample_agg :
  list cell * DataFrame → string → list string → resampled.

Local Abbreviation compute_statistics :=
  (compute_statistics to_datetime_raise resampled resample_mean resample_agg).

(** X11: [compute_statistics] works on the caller's frame, not on a copy: when
    it returns, the Date column of that frame has been replaced by its
    converted values; no other frame and no file changes, and the result
    has the three entries daily, monthly and yearly. *)
Theorem compute_statistics_converts_in_place r w df res w' :
  frames w !! r = Some df →
  compute_statistics r w = Some (res, w') →
  ∃ converted,
    to_datetime_raise (column df "Date") = Some converted ∧
    "Date"%string ∈ columns df ∧
    w' = mkWorld (<[r := setitem df "Date" converted]> (frames w)) (files w) ∧
    dom res = {[ "daily"; "monthly"; "yearly" ]}%string.
Proof.
  intros Hr.
  unfold compute_statistics, getitem_ref, setitem_inplace, bind,
    read_frame, write_frame, lift, ret, getitem, has_col.
  rewrite Hr. cbn.
  destruct (decide ("Date"%string ∈ columns df)) as [Hd|Hd];
    [|by rewrite bool_decide_false].
  rewrite bool_decide_true by done. cbn.
  destruct (to_datetime_raise (column df "Date")) as [converted|]; [|done].
  cbn. rewrite Hr. cbn. rewrite lookup_insert_eq. cbn.
  unfold set_index, has_col, setitem, has_col. cbn [columns].
  rewrite (bool_decide_true _ Hd), (bool_decide_true _ Hd). cbn.
  intros [= <- <-]. exists converted. split; [done|]. split; [done|].
  split; [reflexivity|].
  rewrite !dom_insert_L, dom_empty_L. set_solver.
Qed.

(** X12: [compute_statistics] raises when the frame has no Date column or when
    a date cannot be converted. *)
Theorem compute_statistics_fails r w df :
  frames w !! r = Some df →
  "Date"%string ∉ columns df ∨ to_datetime_raise (column df "Date") = None →
  compute_statistics r w = None.
Proof.
  intros Hr Hbad.
  unfold compute_statistics, getitem_ref, bind, read_frame, lift,
    getitem, has_col.
  rewrite Hr. cbn.
  destruct (decide ("Date"%string ∈ columns df)) as [Hd|Hd];
    [|by rewrite bool_decide_false].
  rewrite bool_decide_true by done. cbn.
  destruct Hbad as [? | ->]; done.
Qed.

Variable to_datetime : list cell → list cell.
Variable number_of_string : string → option Q.
Variable number_of_stamp : date → option Q.
Hypothesis to_datetime_stamps :
  ∀ s c, c ∈ to_datetime s → c = NaN ∨ valid_stamp c.
Hypothesis to_datetime_raise_fix :
  ∀ s, Forall valid_stamp s → to_datetime_raise s = Some s.


End StatisticsFacts.

(** ** The aggregated tables: order of the lines, and totals *)

Lemma cell_le_total : Total cell_le.
Proof.
  intros a b. unfold cell_le.
  destruct a as [|p|s|d], b as [|q|t|e]; cbn; auto.
  - destruct (Qlt_le_dec q p) as [Hlt|Hle].
    + right. by apply Qle_bool_iff, Qlt_le_weak.
    + left. by apply Qle_bool_iff.
  - apply String.leb_total.
  - destruct (Z.lt_total (year d) (year e)) as [H|[H|H]];
      destruct (Z.lt_total (month d) (month e)) as [H'|[H'|H']];
      destruct (Z.le_ge_cases (day d) (day e));
      rewrite ?orb_true_iff, ?andb_true_iff, ?Z.ltb_lt, ?Z.eqb_eq, ?Z.leb_le;
      lia.
Qed.

Lemma group_keys_sorted df key :
  Sorted cell_le (group_keys df key) ∧ NoDup (group_keys df key).
Proof.
  unfold group_keys. split.
  - apply Sorted_merge_sort, cell_le_total.
  - rewrite merge_sort_Permutation. apply NoDup_remove_dups.
Qed.

Lemma groupby_agg_form df key spec st :
  groupby_agg df key spec = Some st →
  st = (λ k, (k, aggregate spec (group_rows df key k))) <$> group_keys df key.
Proof. unfold groupby_agg. destruct (_ && _); [|done]. by intros [= <-]. Qed.

Lemma groupby_agg_fst df key spec st :
  groupby_agg df key spec = Some st → fst <$> st = group_keys df key.
Proof.
  intros ->%groupby_agg_form. rewrite <- list_fmap_compose.
  transitivity (id <$> group_keys df key); [|apply list_fmap_id].
  by apply list_fmap_ext.
Qed.

Lemma group_by_month_and_season_inv r w df monthly seasonal w' :
  frames w !! r = Some df →
  "Date"%string ∈ columns df →
  Forall is_datetime (column df "Date") →
  group_by_month_and_season r w = Some ((monthly, seasonal), w') →
  groupby_agg (seasoned df) "Month" agg_spec = Some monthly ∧
  groupby_agg (seasoned df) "Season" agg_spec = Some seasonal.
Proof.
  intros Hr Hdate Hdt.
  rewrite (group_by_month_and_season_run_datetime r w df Hr Hdate Hdt).
  destruct (groupby_agg (seasoned df) "Month" agg_spec); [|done].
  destruct (groupby_agg (seasoned df) "Season" agg_spec); [|done].
  cbn. by intros [= <- <- _].
Qed.

Lemma cleaned_table_datetime df :
  cleaned_table df →
  "Date"%string ∈ columns df ∧ Forall is_datetime (column df "Date").
Proof.
  intros Hdf. pose proof (cleaned_table_dates df Hdf) as Hdates.
  destruct Hdf as [Hcs _]. split.
  - rewrite Hcs. apply list_elem_of_here.
  - unfold column. apply Forall_fmap.
    eapply Forall_impl; [exact Hdates|]. intros r (d & Hd & _). cbn.
    by rewrite Hd.
Qed.

Lemma month_labels_increasing (l : list cell) :
  Forall (λ k, ∃ m, k = month_cell m) l →
  Sorted cell_le l → NoDup l →
  ∃ ms, l = month_cell <$> ms ∧ Sorted Z.lt ms.
Proof.
  induction 1 as [|k l [m ->] Hl IH]; intros Hs Hn.
  - by exists [].
  - apply Sorted_inv in Hs as [Hs Hhd]. apply NoDup_cons in Hn as [Hnin Hn].
    destruct (IH Hs Hn) as (ms & -> & Hms).
    exists (m :: ms). split; [done|]. constructor; [done|].
    destruct ms as [|m' ms]; constructor.
    cbn in Hhd. apply HdRel_inv in Hhd.
    unfold cell_le, month_cell in Hhd. cbn in Hhd.
    apply Qle_bool_iff in Hhd. rewrite <- Zle_Qle in Hhd.
    assert (m ≠ m'); [|lia]. intros ->. apply Hnin. apply list_elem_of_here.
Qed.

Lemma NoDup_length_bound {A} (l k : list A) :
  NoDup l → (∀ x, x ∈ l → x ∈ k) → (length l ≤ length k)%nat.
Proof. intros Hn Hsub. by apply submseteq_length, NoDup_submseteq. Qed.

(** X14: the lines of the two aggregated tables of a cleaned table come in
    increasing order of their label and no label occurs twice: the monthly
    table lists month numbers between 1 and 12 in strictly increasing
    order, so it has at most 12 lines; the season table lists season names
    in alphabetical order and has at most 4 lines. *)
Theorem aggregated_tables_ordered df r w monthly seasonal w' :
  cleaned_table df → frames w !! r = Some df →
  group_by_month_and_season r w = Some ((monthly, seasonal), w') →
  (∃ ms, fst <$> monthly = month_cell <$> ms ∧ Sorted Z.lt ms ∧
         Forall (λ m, 1 ≤ m ≤ 12) ms) ∧
  (length monthly ≤ 12)%nat ∧
  Sorted cell_le (fst <$> seasonal) ∧ NoDup (fst <$> seasonal) ∧
  Forall (λ k, k ∈ [Str "Autumn"; Str "Spring"; Str "Summer"; Str "Winter"])
         (fst <$> seasonal) ∧
  (length seasonal ≤ 4)%nat.
Proof.
  intros Hdf Hr Hrun.
  destruct (cleaned_table_datetime df Hdf) as [Hdate Hdt].
  destruct (group_by_month_and_season_inv _ _ _ _ _ _ Hr Hdate Hdt Hrun)
    as [Hmon Hsea].
  pose proof (cleaned_table_dates df Hdf) as Hdates.
  destruct (group_keys_sorted (seasoned df) "Month") as [HsM HnM].
  destruct (group_keys_sorted (seasoned df) "Season") as [HsS HnS].
  rewrite <- (groupby_agg_fst _ _ _ _ Hmon) in HsM, HnM.
  rewrite <- (groupby_agg_fst _ _ _ _ Hsea) in HsS, HnS.
  assert (Forall (λ k, ∃ m, 1 ≤ m ≤ 12 ∧ k = month_cell m) (fst <$> monthly))
    as Hlab.
  { apply Forall_fmap, Forall_forall. intros e He.
    destruct (groupby_agg_labels _ _ _ _ e Hmon He) as [_ Hin].
    rewrite column_seasoned_month in Hin.
    apply list_elem_of_fmap in Hin as (r0 & He1 & Hr0).
    rewrite Forall_forall in Hdates.
    destruct (Hdates r0 Hr0) as (d & Hd & Hv).
    exists (month d). split; [by apply valid_date_month|].
    cbn. rewrite He1. unfold row_month. by rewrite Hd. }
  assert (Forall (λ k, k ∈ [Str "Autumn"; Str "Spring"; Str "Summer";
                             Str "Winter"]) (fst <$> seasonal)) as HlabS.
  { apply Forall_fmap, Forall_forall. intros e He.
    destruct (groupby_agg_labels _ _ _ _ e Hsea He) as [_ Hin].
    rewrite column_seasoned_season in Hin.
    apply list_elem_of_fmap in Hin as (r0 & He1 & Hr0).
    cbn. rewrite He1. unfold month_to_season.
    repeat case_match; rewrite !elem_of_cons; naive_solver. }
  split; [|split; [|split; [|split; [|split]]]]; try done.
  - destruct (month_labels_increasing (fst <$> monthly)) as (ms & Hms & Hsorted);
      [|done|done|].
    { eapply Forall_impl; [exact Hlab|]. naive_solver. }
    exists ms. split; [done|]. split; [done|].
    rewrite Hms in Hlab. rewrite Forall_fmap in Hlab.
    eapply Forall_impl; [exact Hlab|]. intros m (m' & Hm' & Heq). cbn in Heq.
    unfold month_cell, inject_Z in Heq. by injection Heq as ->.
  - rewrite <- (length_fmap fst monthly).
    etransitivity;
      [apply (NoDup_length_bound _ (month_cell <$> seqZ 1 12) HnM)|done].
    intros k Hk. rewrite Forall_forall in Hlab.
    destruct (Hlab k Hk) as (m & Hm & ->).
    apply list_elem_of_fmap_2, elem_of_seqZ. lia.
  - rewrite <- (length_fmap fst seasonal).
    etransitivity;
      [apply (NoDup_length_bound _ [Str "Autumn"; Str "Spring"; Str "Summer";
                                    Str "Winter"] HnS)|done].
    by apply Forall_forall.
Qed.

(** ** Concrete tables, continued *)

Lemma iso_clean_with_station :
  Iso.clean with_station = Some with_station_cleaned.
Proof. vm_compute. reflexivity. Qed.


Lemma scenario_cleaned_table : cleaned_table scenario_cleaned.
Proof.
  apply (clean_gives_cleaned_table Iso.to_datetime Iso.number_of_string
           Iso.number_of_stamp iso_to_datetime_stamps scenario);
    [exact iso_clean_scenario|reflexivity].
Qed.

Lemma scenario_cleaned_datetime :
  Forall is_datetime (column scenario_cleaned "Date").
Proof. apply cleaned_table_datetime, scenario_cleaned_table. Qed.

Lemma clean_keeps_known_columns_witness :
  columns with_station_cleaned
  = filter (λ c, c ∈ columns with_station) cols ∧
  "Date"%string ∈ columns with_station_cleaned ∧
  Forall (λ r, ∀ k, is_Some (r !! k) → k ∈ columns with_station_cleaned)
         (rows with_station_cleaned).
Proof.
  apply (clean_keeps_known_columns Iso.to_datetime Iso.number_of_string
           Iso.number_of_stamp iso_to_datetime_stamps with_station).
  exact iso_clean_with_station.
Defined.

Lemma clean_never_adds_rows_witness :
  (length (rows with_station_cleaned) ≤ length (rows with_station))%nat.
Proof.
  apply (clean_never_adds_rows Iso.to_datetime Iso.number_of_string
           Iso.number_of_stamp with_station).
  exact iso_clean_with_station.
Defined.

Lemma add_season_column_effect_witness :
  ∃ df',
    add_season_column 0 (one_frame scenario_cleaned)
    = Some (0%nat, mkWorld (<[0%nat := df']> (frames (one_frame scenario_cleaned)))
                           (files (one_frame scenario_cleaned))) ∧
    length (rows df') = length (rows scenario_cleaned) ∧
    (∀ c, c ∈ columns df' ↔
          c ∈ columns scenario_cleaned ∨ c = "Month"%string
          ∨ c = "Season"%string) ∧
    (∀ c, c ≠ "Month"%string → c ≠ "Season"%string →
          column df' c = column scenario_cleaned c) ∧
    Forall2 (λ d m, m = match d with
                        | Stamp dt => month_cell (month dt)
                        | _ => NaN
                        end)
            (column scenario_cleaned "Date") (column df' "Month") ∧
    Forall2 (λ m s, s = Str (month_to_season m))
            (column df' "Month") (column df' "Season") ∧
    Forall2 (λ d s, d = NaN → s = Str "Autumn")
            (column scenario_cleaned "Date") (column df' "Season").
Proof.
  apply (add_season_column_effect 0 (one_frame scenario_cleaned)).
  - reflexivity.
  - apply list_elem_of_here.
  - exact scenario_cleaned_datetime.
Defined.

Lemma add_season_column_twice_witness :
  add_season_column 0
    (mkWorld (<[0%nat := seasoned scenario_cleaned]>
                (frames (one_frame scenario_cleaned))) ∅)
  = Some (0%nat, mkWorld (<[0%nat := seasoned scenario_cleaned]>
                            (frames (one_frame scenario_cleaned))) ∅).
Proof.
  apply (add_season_column_twice 0 (one_frame scenario_cleaned)
           scenario_cleaned).
  - reflexivity.
  - apply list_elem_of_here.
  - exact scenario_cleaned_datetime.
  - apply add_season_column_run_datetime.
    + reflexivity.
    + apply list_elem_of_here.
    + exact scenario_cleaned_datetime.
Defined.

Lemma add_season_column_fails_witness :
  add_season_column 0 (one_frame scenario) = None.
Proof.
  apply (add_season_column_fails 0 (one_frame scenario) scenario).
  - reflexivity.
  - right. apply Exists_cons_hd. vm_compute. tauto.
Defined.

Lemma group_by_needs_measurement_columns_witness :
  group_by_month_and_season 0 (one_frame no_humidity) = None.
Proof.
  apply (group_by_needs_measurement_columns 0 (one_frame no_humidity)
           no_humidity "Humidity").
  - reflexivity.
  - do 2 apply list_elem_of_further. apply list_elem_of_here.
  - unfold no_humidity. cbn [columns]. rewrite !elem_of_cons, elem_of_nil.
    naive_solver.
Defined.

Lemma max_rain_day_fails_iff_witness :
  Iso.clean scenario = Some scenario_cleaned ∧
  (max_rain_day scenario_cleaned = None ↔
   "Rainfall"%string ∉ columns scenario_cleaned ∨
   numeric_values (column scenario_cleaned "Rainfall") = []).
Proof.
  split; [exact iso_clean_scenario|].
  apply (max_rain_day_fails_iff Iso.to_datetime Iso.number_of_string
           Iso.number_of_stamp iso_to_datetime_stamps scenario).
  exact iso_clean_scenario.
Defined.

Lemma compute_statistics_scenario :
  compute_statistics iso_to_datetime_raise unit unit_resample_mean
    unit_resample_agg 0 (one_frame scenario)
  = Some (three_stats, one_frame scenario_dated).
Proof. vm_compute. reflexivity. Qed.

Lemma compute_statistics_converts_in_place_witness :
  ∃ converted,
    iso_to_datetime_raise (column scenario "Date") = Some converted ∧
    "Date"%string ∈ columns scenario ∧
    one_frame scenario_dated
    = mkWorld (<[0%nat := setitem scenario "Date" converted]>
                 (frames (one_frame scenario)))
              (files (one_frame scenario)) ∧
    dom three_stats = {[ "daily"; "monthly"; "yearly" ]}%string.
Proof.
  apply (compute_statistics_converts_in_place iso_to_datetime_raise unit
           unit_resample_mean unit_resample_agg 0 (one_frame scenario)
           scenario three_stats (one_frame scenario_dated)).
  - reflexivity.
  - exact compute_statistics_scenario.
Defined.

Lemma compute_statistics_fails_witness :
  compute_statistics iso_to_datetime_raise unit unit_resample_mean
    unit_resample_agg 0 (one_frame (mkFrame ["Temperature"%string] []))
  = None.
Proof.
  apply (compute_statistics_fails iso_to_datetime_raise unit
           unit_resample_mean unit_resample_agg 0 _
           (mkFrame ["Temperature"%string] [])).
  - reflexivity.
  - left. cbn [columns]. rewrite elem_of_cons, elem_of_nil. naive_solver.
Defined.


Lemma aggregated_tables_ordered_witness :
  (∃ ms, fst <$> scenario_monthly = month_cell <$> ms ∧ Sorted Z.lt ms ∧
         Forall (λ m, 1 ≤ m ≤ 12) ms) ∧
  (length scenario_monthly ≤ 12)%nat ∧
  Sorted cell_le (fst <$> scenario_seasonal) ∧
  NoDup (fst <$> scenario_seasonal) ∧
  Forall (λ k, k ∈ [Str "Autumn"; Str "Spring"; Str "Summer"; Str "Winter"])
         (fst <$> scenario_seasonal) ∧
  (length scenario_seasonal ≤ 4)%nat.
Proof.
  apply (aggregated_tables_ordered scenario_cleaned 0
           (one_frame scenario_cleaned) scenario_monthly scenario_seasonal
           (after_grouping scenario_cleaned)).
  - exact scenario_cleaned_table.
  - reflexivity.
  - exact scenario_groups.
Defined.

